(** * Verifying paymaster service: sponsorship engine and JSON-RPC dispatcher

    A shallow embedding of [api.Signer] (Pm_sponsorUserOperation, Pm_gasRemain,
    Pm_config, Pm_requestGas) and of [jsonrpc.Process], with the properties of
    the gas ledger, the rate limit, the authorization layout and the argument
    coercion of the dispatcher. *)

From Stdlib Require Import ZArith NArith String Ascii List Bool Lia.
From Stdlib Require Import DecimalString DecimalZ.
From Stdlib Require Import Floats.SpecFloat.
From Stdlib Require Strings.Byte.
Import ListNotations.

#[local] Open Scope string_scope.
#[local] Open Scope list_scope.
#[local] Open Scope Z_scope.

(* ================================================================= *)
(** ** Go values used by the service *)

(** [math/big]: decimal text of arbitrary-precision integers.  A [*big.Int]
    that may be nil is an [option Z]. *)
Module big.

(** [new(big.Int).SetString(s, 10)]: an optional sign, then at least one
    decimal digit, then the end of the string; nil on anything else. *)
Definition SetString (s : string) : option Z :=
  match s with
  | String "-"%char r => option_map (fun d => - Z.of_uint d) (NilZero.uint_of_string r)
  | String "+"%char r => option_map Z.of_uint (NilZero.uint_of_string r)
  | _ => option_map Z.of_uint (NilZero.uint_of_string s)
  end.

(** [x.String()] of a non-nil [x]. *)
Definition Text (z : Z) : string := NilZero.string_of_int (Z.to_int z).

(** [x.String()]: the receiver may be nil. *)
Definition String_ (x : option Z) : string :=
  match x with
  | None => "<nil>"
  | Some z => Text z
  end.

(** [x.Int64()]: the low 64 bits of the magnitude as an int64, negated for
    a negative [x]. *)
Definition wrap64 (z : Z) : Z := (z + 2 ^ 63) mod 2 ^ 64 - 2 ^ 63.

Definition Int64 (z : Z) : Z :=
  let v := wrap64 (Z.abs z mod 2 ^ 64) in
  if z <? 0 then wrap64 (- v) else v.

End big.

(** int64 addition, as in [account.LastRequest.Unix()+86400]. *)
Definition int64_add (a b : Z) : Z := big.wrap64 (a + b).

(** Byte strings. *)
Definition bytes := list Byte.byte.

Definition byte_of_N (n : N) : Byte.byte :=
  match Byte.of_N n with
  | Some b => b
  | None => Byte.x00
  end.

(** Little-endian digits in base 256, [len] of them. *)
Fixpoint le_bytes (len : nat) (n : N) : bytes :=
  match len with
  | O => []
  | S l => byte_of_N (n mod 256) :: le_bytes l (n / 256)
  end.

Fixpoint le_value (b : bytes) : N :=
  match b with
  | [] => 0%N
  | x :: r => (Byte.to_N x + 256 * le_value r)%N
  end.

(** Number of base-256 digits of [n]. *)
Fixpoint byte_len (fuel : nat) (n : N) : nat :=
  match fuel with
  | O => O
  | S f => if (n =? 0)%N then O else S (byte_len f (n / 256))
  end.

(** [x.Bytes()]: the magnitude, big-endian, without leading zero bytes. *)
Definition big_Bytes (z : Z) : bytes :=
  let n := Z.abs_N z in
  rev (le_bytes (byte_len (N.size_nat n) n) n).

(** [math.U256Bytes]: the value modulo 2^256 as 32 big-endian bytes. *)
Definition U256Bytes (z : Z) : bytes :=
  rev (le_bytes 32 (Z.to_N (z mod 2 ^ 256))).

Definition be_value (b : bytes) : N := le_value (rev b).

(** [encoding/hex] and [hexutil.Encode]. *)
Definition hexdigit (n : N) : ascii :=
  if (n <? 10)%N then ascii_of_N (48 + n) else ascii_of_N (87 + n).

Fixpoint hex_Encode (b : bytes) : string :=
  match b with
  | [] => EmptyString
  | x :: r =>
      String (hexdigit (Byte.to_N x / 16))
        (String (hexdigit (Byte.to_N x mod 16)) (hex_Encode r))
  end.

Definition hexutil_Encode (b : bytes) : string :=
  String.append "0x" (hex_Encode b).

Definition unhex (c : ascii) : option N :=
  let n := N_of_ascii c in
  if ((48 <=? n) && (n <=? 57))%N then Some (n - 48)%N
  else if ((97 <=? n) && (n <=? 102))%N then Some (n - 87)%N
  else None.

Fixpoint hex_Decode (s : string) : option bytes :=
  match s with
  | EmptyString => Some []
  | String h (String l r) =>
      match unhex h, unhex l, hex_Decode r with
      | Some a, Some b, Some t => Some (byte_of_N (16 * a + b) :: t)
      | _, _, _ => None
      end
  | _ => None
  end.

Definition hexutil_Decode (s : string) : option bytes :=
  match s with
  | String "0" (String "x" r) => hex_Decode r
  | _ => None
  end.

(** [strings.ToLower] on ASCII text (addresses are hexadecimal text). *)
Definition lower_ascii (c : ascii) : ascii :=
  let n := nat_of_ascii c in
  if ((65 <=? n) && (n <=? 90))%nat then ascii_of_nat (n + 32) else c.

Fixpoint strings_ToLower (s : string) : string :=
  match s with
  | EmptyString => EmptyString
  | String c r => String (lower_ascii c) (strings_ToLower r)
  end.

(** Values decoded by [encoding/json] into [interface{}]: nil, bool, float64,
    string, [[]interface{}] and [map[string]interface{}]. *)
Definition float64 := spec_float.

#[warnings="-register-all"]
Inductive json : Type :=
| JNull
| JBool (b : bool)
| JNumber (f : float64)
| JString (s : string)
| JArray (l : list json)
| JObject (m : list (string * json)).

(** Go errors: a plain [error] made by [errors.New] or returned by a
    collaborator, and the service's [*errors.RPCError] triple. *)
Inductive error : Type :=
| PlainError (msg : string)
| RPCError (code : Z) (msg : string) (data : json).

Definition errors_New (msg : string) : error := PlainError msg.

Definition error_Error (e : error) : string :=
  match e with
  | PlainError m => m
  | RPCError _ m _ => m
  end.

(* ================================================================= *)
(** ** Accounts and their store *)

(** [models.Account], with the fields the service reads and writes.  The two
    gas amounts are kept as decimal text, [LastRequest] is the time in Unix
    seconds and [VipID] is an int64 ([-1]: no VIP token). *)
Record Account : Type := mkAccount {
  Address : string;
  Enable : bool;
  UsedGas : string;
  RemainGas : string;
  LastRequest : Z;
  VipID : Z
}.

Definition set_UsedGas (a : Account) (v : string) : Account :=
  mkAccount (Address a) (Enable a) v (RemainGas a) (LastRequest a) (VipID a).
Definition set_RemainGas (a : Account) (v : string) : Account :=
  mkAccount (Address a) (Enable a) (UsedGas a) v (LastRequest a) (VipID a).
Definition set_LastRequest (a : Account) (v : Z) : Account :=
  mkAccount (Address a) (Enable a) (UsedGas a) (RemainGas a) v (VipID a).
Definition set_VipID (a : Account) (v : Z) : Account :=
  mkAccount (Address a) (Enable a) (UsedGas a) (RemainGas a) (LastRequest a) v.

(** [time.Time{}.Unix()], the [LastRequest] of a freshly built account. *)
Definition zero_time : Z := -62135596800.

(** Modelled from the spec: the account table behind [models.Account] and
    [Container.GetRepository()] is outside the sources.  It is a table of
    account records keyed by the lower-cased address: [findByAddress] and
    [findByVipTokenId] return the record found, if any (enabled or not), and
    [save] writes the record of that address. *)
Definition Repository := list Account.

Fixpoint Account_FindByAddress (db : Repository) (addr : string) : option Account :=
  match db with
  | [] => None
  | a :: r =>
      if String.eqb (Address a) addr then Some a else Account_FindByAddress r addr
  end.

Fixpoint Account_FindByVipID (db : Repository) (id : Z) : option Account :=
  match db with
  | [] => None
  | a :: r => if VipID a =? id then Some a else Account_FindByVipID r id
  end.

Fixpoint Repository_Save (db : Repository) (a : Account) : Repository :=
  match db with
  | [] => [a]
  | b :: r =>
      if String.eqb (Address b) (Address a) then a :: r
      else b :: Repository_Save r a
  end.

(* ================================================================= *)
(** ** The world of one call: store, clock readings and collaborators *)

(** [reflect.Kind] *)
Inductive Kind : Type :=
| Invalid | Bool | Int | Int8 | Int16 | Int32 | Int64
| Uint | Uint8 | Uint16 | Uint32 | Uint64 | Uintptr
| Float32 | Float64 | Complex64 | Complex128
| Array | Chan | Func | Interface | Map | Pointer | Slice
| String_ | Struct | UnsafePointer.

(** The [reflect.Value]s the dispatcher builds as arguments.  [VZero] is the
    zero Value: a slot of [args] that was never assigned, or
    [reflect.ValueOf(nil)]. *)
Inductive Value : Type :=
| VZero
| VFloat64 (f : float64)
| VInt (k : Kind) (n : Z)
| VInterface (v : json)
| VMap (m : list (string * json))
| VSlice (l : list json)
| VString (s : string).

(** [models.ApiKeys] *)
Record ApiKeys : Type := mkApiKeys {
  Key : string;
  key_Enable : bool
}.

(** The calls that leave the process, and the invocation of a registered
    operation, in the order they are made. *)
Inductive Event : Type :=
| EvFindByKey (key : string)
| EvInvoke (method : string) (args : list Value)
| EvFindByAddress (addr : string)
| EvFindByVipID (id : Z)
| EvSave (a : Account) (committed : bool)
| EvTokenOfOwner (addr : string)
| EvGetHash (paymasterAndData : bytes)
| EvSign (hash : bytes).

Record World : Type := mkWorld {
  accounts : Repository;
  trace : list Event;
  ticks : nat
}.

Definition log (e : Event) (w : World) : World :=
  mkWorld (accounts w) (trace w ++ [e]) (ticks w).

(** [types.UserOperation] as the parser outside the sources returns it:
    every field populated, [Sender] as the text [Sender.String()] gives. *)
Record UserOperation : Type := mkUserOperation {
  Sender : string;
  Nonce : Z;
  InitCode : bytes;
  CallData : bytes;
  CallGasLimit : Z;
  VerificationGasLimit : Z;
  PreVerificationGas : Z;
  MaxFeePerGas : Z;
  MaxPriorityFeePerGas : Z;
  PaymasterAndData : bytes;
  Signature : bytes
}.

Definition RawOp := list (string * json).

(** What one call meets outside the process: the readings of the clock, the
    API-key table, the parser of user operations, whether each query of the
    account table fails, and the chain client (VIP token lookup, paymaster
    hash, signing key). *)
Record Env : Type := mkEnv {
  clock : nat -> Z;
  FindByKey : string -> error + option ApiKeys;
  NewUserOperation : RawOp -> error + UserOperation;
  find_by_address_error : option error;
  find_by_vip_error : option error;
  save_error : option error;
  TokenOfOwnerByIndex : string -> error + Z;
  GetHash : UserOperation -> Z -> Z -> error + bytes;
  SignMessage : bytes -> error + bytes
}.

(** A call returns, fails with an error, or panics (nil dereference). *)
Inductive Outcome (A : Type) : Type :=
| Returned (a : A)
| Failed (e : error)
| Panicked.
Arguments Returned {A} a.
Arguments Failed {A} e.
Arguments Panicked {A}.

Definition M (A : Type) : Type := World -> Outcome A * World.

Definition ret {A} (a : A) : M A := fun w => (Returned a, w).
Definition fail {A} (e : error) : M A := fun w => (Failed e, w).
Definition panic {A} : M A := fun w => (Panicked, w).

Definition bind {A B} (m : M A) (f : A -> M B) : M B :=
  fun w =>
    match m w with
    | (Returned a, w') => f a w'
    | (Failed e, w') => (Failed e, w')
    | (Panicked, w') => (Panicked, w')
    end.

Notation "x <- m ;; k" := (bind m (fun x => k))
  (at level 61, m at next level, right associativity).

(** Dereference of a [*big.Int] or [*models.Account] that may be nil. *)
Definition deref {A} (p : option A) : M A :=
  match p with
  | Some v => ret v
  | None => panic
  end.

(* ================================================================= *)
(** ** The sponsorship engine ([api.Signer]) *)

(** [config.Config()]: the settings the engine reads. *)
Record Config : Type := mkConfig {
  conf_Contract : string;
  conf_CreateGas : string;
  conf_MaxGas : string;
  conf_VipContract : string;
  conf_VipMaxGas : string
}.

(** [Signer]: the paymaster contract address (20 bytes) and the three tier
    ceilings; the chain client and the key are in [Env]. *)
Record Signer : Type := mkSigner {
  Contract : bytes;
  CreateGas : option Z;
  MaxGas : option Z;
  MaxVipGas : option Z
}.

(** The tier ceilings as [NewSigner] reads them from the configuration. *)
Definition NewSigner (conf : Config) (contract : bytes) : Signer :=
  let createGas := big.SetString (conf_CreateGas conf) in
  let maxGas := big.SetString (conf_MaxGas conf) in
  let maxVipGas := big.SetString (conf_VipMaxGas conf) in
  mkSigner contract createGas maxGas maxVipGas.

Record PaymasterResult : Type := mkPaymasterResult {
  res_PaymasterAndData : string;
  res_PreVerificationGas : string;
  res_VerificationGasLimit : string;
  res_CallGasLimit : string
}.

Record GasRemain : Type := mkGasRemain {
  Remain : string;
  LastRequest_ : Z;
  Used : string
}.

Record PaymasterConfig : Type := mkPaymasterConfig {
  cfg_MaxGas : string;
  cfg_VipContract : string;
  cfg_MaxVipGas : string
}.

(** one day *)
Definition validTimeDelay : Z := 86400.

Definition emptySignature : bytes := repeat Byte.x00 65.

(** [timeRangeABI.Pack(validUntil, validAfter)]: two static uint256 words.
    With two [*big.Int] arguments the packer has no failing case. *)
Definition timeRangeABI_Pack (validUntil validAfter : Z) : error + bytes :=
  inr (U256Bytes validUntil ++ U256Bytes validAfter).

Section Engine.

Variable s : Signer.
Variable conf : Config.
Variable env : Env.

Definition time_Now : M Z :=
  fun w => (Returned (clock env (ticks w)),
            mkWorld (accounts w) (trace w) (S (ticks w))).

Definition FindByAddress (addr : string) : M (error + option Account) :=
  fun w =>
    match find_by_address_error env with
    | Some e => (Returned (inl e), log (EvFindByAddress addr) w)
    | None => (Returned (inr (Account_FindByAddress (accounts w) addr)),
               log (EvFindByAddress addr) w)
    end.

Definition FindByVipID (id : Z) : M (error + option Account) :=
  fun w =>
    match find_by_vip_error env with
    | Some e => (Returned (inl e), log (EvFindByVipID id) w)
    | None => (Returned (inr (Account_FindByVipID (accounts w) id)),
               log (EvFindByVipID id) w)
    end.

(** [GetRepository().Save(account).Error] *)
Definition Save (a : Account) : M (option error) :=
  fun w =>
    match save_error env with
    | Some e => (Returned (Some e), log (EvSave a false) w)
    | None => (Returned None,
               mkWorld (Repository_Save (accounts w) a)
                       (trace w ++ [EvSave a true]) (ticks w))
    end.

Definition VipContract_TokenOfOwnerByIndex (addr : string) : M (error + Z) :=
  fun w => (Returned (TokenOfOwnerByIndex env addr), log (EvTokenOfOwner addr) w).

Definition Paymaster_GetHash (op : UserOperation) (validUntil validAfter : Z)
  : M (error + bytes) :=
  fun w => (Returned (GetHash env op validUntil validAfter),
            log (EvGetHash (PaymasterAndData op)) w).

Definition utils_SignMessage (hash : bytes) : M (error + bytes) :=
  fun w => (Returned (SignMessage env hash), log (EvSign hash) w).

Definition Pm_sponsorUserOperation (op : RawOp) (entryPoint : string)
  : M PaymasterResult :=
  let entryPoint := "0x5FF137D4b0FDCD49DcA30c7CF57E578a026d2789" in
  match NewUserOperation env op with
  | inl err => fail err
  | inr userOp =>
    found <- FindByAddress (strings_ToLower (Sender userOp)) ;;
    match found with
    | inl _ => fail (errors_New "insufficient gas")
    | inr None => fail (errors_New "insufficient gas")
    | inr (Some account) =>
      let preVerificationGas := 52304 in
      let verificationGas := 100000 in
      let callGas := 33100 in
      let remainGas := big.SetString (RemainGas account) in
      let totalGas := preVerificationGas + verificationGas in
      let totalGas := totalGas + callGas in
      let totalGas := totalGas * MaxFeePerGas userOp in
      remain <- deref remainGas ;;
      if totalGas >? remain then fail (errors_New "insufficient gas") else
      let usedGas := big.SetString (UsedGas account) in
      used <- deref usedGas ;;
      let account := set_UsedGas account (big.Text (used + totalGas)) in
      let account := set_RemainGas account (big.Text (remain - totalGas)) in
      err <- Save account ;;
      match err with
      | Some e => fail e
      | None =>
        now <- time_Now ;;
        let validAfter := now in
        let validUntil := validAfter + validTimeDelay in
        match timeRangeABI_Pack validUntil validAfter with
        | inl e => fail e
        | inr timeRangeData =>
          let paymasterAndData := (Contract s ++ timeRangeData) ++ emptySignature in
          hashed <- Paymaster_GetHash
                      (mkUserOperation (Sender userOp) (Nonce userOp)
                         (InitCode userOp) (CallData userOp)
                         callGas verificationGas preVerificationGas
                         (MaxFeePerGas userOp) (MaxPriorityFeePerGas userOp)
                         paymasterAndData [])
                      validUntil validAfter ;;
          match hashed with
          | inl e => fail e
          | inr hash =>
            signed <- utils_SignMessage hash ;;
            match signed with
            | inl e => fail e
            | inr signature =>
              ret (mkPaymasterResult
                     (hexutil_Encode ((Contract s ++ timeRangeData) ++ signature))
                     (hexutil_Encode (big_Bytes preVerificationGas))
                     (hexutil_Encode (big_Bytes verificationGas))
                     (hexutil_Encode (big_Bytes callGas)))
            end
          end
        end
      end
    end
  end.

Definition Pm_gasRemain (addr : string) : M GasRemain :=
  found <- FindByAddress (strings_ToLower addr) ;;
  match found with
  | inl err => fail err
  | inr None => ret (mkGasRemain "0" 0 "0")
  | inr (Some account) =>
    if negb (Enable account) then ret (mkGasRemain "0" 0 "0")
    else ret (mkGasRemain (RemainGas account) (LastRequest account) (UsedGas account))
  end.

Definition Pm_config : M PaymasterConfig :=
  ret (mkPaymasterConfig (conf_MaxGas conf) (conf_VipContract conf)
         (conf_VipMaxGas conf)).

Definition Pm_requestGas (addr : string) : M bool :=
  found <- FindByAddress (strings_ToLower addr) ;;
  match found with
  | inl err => fail err
  | inr account =>
    owned <- VipContract_TokenOfOwnerByIndex addr ;;
    let lastVip :=
      match owned with
      | inl _ => -1
      | inr index => big.Int64 index
      end in
    let gas := MaxGas s in
    gas <- (if negb (lastVip =? -1) then
              linked <- FindByVipID lastVip ;;
              match linked with
              | inl err => fail err
              | inr None => ret (MaxVipGas s)
              | inr (Some last) =>
                acc <- deref account ;;
                now <- time_Now ;;
                if int64_add (LastRequest acc) 86400 >? now
                then fail (errors_New "frequent requests with NFT")
                else ret (MaxVipGas s)
              end
            else ret gas) ;;
    granted <-
      match account with
      | Some acc =>
        if negb (Enable acc) then fail (errors_New "account disabled") else
        now <- time_Now ;;
        if int64_add (LastRequest acc) 86400 >? now
        then fail (errors_New "frequent requests")
        else ret (acc, gas)
      | None =>
        let gas := if lastVip =? -1 then CreateGas s else gas in
        ret (mkAccount (strings_ToLower addr) true "0" EmptyString zero_time 0, gas)
      end ;;
    let account := fst granted in
    let gas := snd granted in
    let account := set_RemainGas account (big.String_ gas) in
    now <- time_Now ;;
    let account := set_LastRequest account now in
    let account := set_VipID account lastVip in
    err <- Save account ;;
    match err with
    | Some e => fail e
    | None => ret true
    end
  end.

End Engine.

(* ================================================================= *)
(** ** The request dispatcher ([jsonrpc.Process]) *)

(** What a registered operation hands back to [call.Call]: a nil result or
    nil error, a result value, or a non-nil error. *)
Inductive RetVal (Res : Type) : Type :=
| RetNil
| RetValue (r : Res)
| RetError (e : error).
Arguments RetNil {Res}.
Arguments RetValue {Res} r.
Arguments RetError {Res} e.

(** The response written by [c.JSON]: the error envelope of [jsonrpcError]
    or the result envelope. *)
Inductive Response (Res : Type) : Type :=
| ErrorResponse (code : Z) (message : string) (data : json) (id : option float64)
| ResultResponse (result : RetVal Res) (id : float64).
Arguments ErrorResponse {Res} code message data id.
Arguments ResultResponse {Res} result id.

Definition jsonrpcError {Res} (code : Z) (message : string) (data : json)
  (id : option float64) : Response Res :=
  ErrorResponse code message data id.

(** The request body: absent, unreadable, not JSON, or the decoded object. *)
Inductive Body : Type :=
| NoBody
| BodyUnreadable
| BodyNotJSON
| BodyJSON (data : list (string * json)).

Record Request : Type := mkRequest {
  req_Method : string;
  req_Body : Body;
  req_key : string
}.

(** [data[name]] on the decoded object; nil when the key is missing. *)
Fixpoint map_get (data : list (string * json)) (name : string) : json :=
  match data with
  | [] => JNull
  | (k, v) :: r => if String.eqb k name then v else map_get r name
  end.

(** A method of the service as reflection shows it: for each parameter its
    kind and the text of its type, and [call.Call] on it, which panics when
    reflection refuses the arguments. *)
Record Method (Res : Type) : Type := mkMethod {
  In : list (Kind * string);
  Call : list Value -> M (list (RetVal Res))
}.
Arguments In {Res} m.
Arguments Call {Res} m args.

(** [reflect.ValueOf(arg)] *)
Definition reflect_ValueOf (arg : json) : Value :=
  match arg with
  | JNull => VZero
  | _ => VInterface arg
  end.

(** [fmt.Sprintf("Param [%d] can't be converted to %v", i, ty)] *)
Definition cant_convert (i : nat) (ty : string) : string :=
  String.append "Param ["
    (String.append (NilZero.string_of_uint (Nat.to_uint i))
       (String.append "] can't be converted to " ty)).

(** One turn of the loop over [params]: the argument built, or the error
    response that ends the call. *)
Inductive Coerced (Res : Type) : Type :=
| Arg (v : Value)
| Reject (r : Response Res).
Arguments Arg {Res} v.
Arguments Reject {Res} r.

Section Dispatcher.

Variable Res : Type.
(** [cases.Title(language.Und, cases.NoLower).String] *)
Variable Title : string -> string.
(** The Go conversions [int(fval)], [int8(fval)], ..., [uint64(fval)]. *)
Variable convert : Kind -> float64 -> Z.
(** [reflect.ValueOf(service).MethodByName] *)
Variable MethodByName : string -> option (Method Res).
Variable env : Env.

Definition ApiKeys_FindByKey (key : string) : M (error + option ApiKeys) :=
  fun w => (Returned (FindByKey env key), log (EvFindByKey key) w).

Definition invoke (name : string) (call : Method Res) (args : list Value)
  : M (list (RetVal Res)) :=
  fun w => Call call args (log (EvInvoke name args) w).

Definition invalid_param (i : nat) (ty : string) (id : float64) : Coerced Res :=
  Reject (jsonrpcError (-32602) "Invalid params" (JString (cant_convert i ty))
            (Some id)).

(** The integer kinds share one shape: [arg.(intN)] never holds for a
    decoded JSON value, so the float64 branch decides. *)
Definition coerce_int (k : Kind) (i : nat) (ty : string) (id : float64)
  (arg : json) : Coerced Res :=
  match arg with
  | JNumber fval => Arg (VInt k (convert k fval))
  | _ => invalid_param i ty id
  end.

(** The [switch call.Type().In(i).Kind()] of the loop.  [ok] is the flag
    left by the assertion on [data["params"]]. *)
Definition coerce (ok : bool) (k : Kind) (i : nat) (ty : string) (id : float64)
  (arg : json) : Coerced Res :=
  match k with
  | Float32 => invalid_param i ty id
  | Float64 =>
      match arg with
      | JNumber val => Arg (VFloat64 val)
      | _ => invalid_param i ty id
      end
  | Int | Int8 | Int16 | Int32 | Int64 => coerce_int k i ty id arg
  | Interface => Arg (reflect_ValueOf arg)
  | Map =>
      match arg with
      | JObject val => Arg (VMap val)
      | _ => invalid_param i ty id
      end
  | Slice =>
      match arg with
      | JArray val => Arg (VSlice val)
      | _ => invalid_param i ty id
      end
  | String_ =>
      let val := match arg with JString v => v | _ => EmptyString end in
      Arg (VString val)
  | Uint | Uint8 | Uint16 | Uint32 | Uint64 => coerce_int k i ty id arg
  | _ =>
      if negb ok
      then Reject (jsonrpcError (-32603) "Internal error"
                     (JString "Invalid method defination") (Some id))
      else Arg VZero
  end.

(** The loop [for i, arg := range params]: [None] is the panic of
    [call.Type().In(i)] past the last parameter. *)
Fixpoint coerce_params (ok : bool) (ins : list (Kind * string)) (id : float64)
  (i : nat) (params : list json) : option (Response Res + list Value) :=
  match params with
  | [] => Some (inr [])
  | arg :: rest =>
      match nth_error ins i with
      | None => None
      | Some (k, ty) =>
          match coerce ok k i ty id arg with
          | Reject r => Some (inl r)
          | Arg v =>
              match coerce_params ok ins id (S i) rest with
              | Some (inr vs) => Some (inr (v :: vs))
              | other => other
              end
          end
      end
  end.

(** The reading of [result] after the call. *)
Definition respond (result : list (RetVal Res)) (id : float64) : M (Response Res) :=
  match last result RetNil, result with
  | _, [] => panic
  | RetError (RPCError code msg data), _ =>
      ret (jsonrpcError code msg data (Some id))
  | RetError (PlainError msg), _ =>
      ret (jsonrpcError (-32601) msg (JString msg) (Some id))
  | _, first :: _ => ret (ResultResponse first id)
  end.

Definition Process (req : Request) : M (Response Res) :=
  if negb (String.eqb (req_Method req) "POST") then
    ret (jsonrpcError (-32700) "Parse error" (JString "POST method excepted") None)
  else
  match req_Body req with
  | NoBody => ret (jsonrpcError (-32700) "Parse error" (JString "No POST data") None)
  | body =>
    let key := req_key req in
    if String.eqb key EmptyString then
      ret (jsonrpcError (-32700) "Key error" (JString "No key") None)
    else
    apiKey <- ApiKeys_FindByKey key ;;
    match apiKey with
    | inl _ =>
        ret (jsonrpcError (-32700) "Database error" (JString "Query apikey error") None)
    | inr apiKey =>
      if match apiKey with None => true | Some k => negb (key_Enable k) end then
        ret (jsonrpcError (-32700) "Key error" (JString "Apikey error") None)
      else
      match body with
      | NoBody | BodyUnreadable =>
          ret (jsonrpcError (-32700) "Parse error"
                 (JString "Error while reading request body") None)
      | BodyNotJSON =>
          ret (jsonrpcError (-32700) "Parse error"
                 (JString "Error parsing json request") None)
      | BodyJSON data =>
        match map_get data "id" with
        | JNumber id =>
          match map_get data "jsonrpc" with
          | JString "2.0" =>
            match map_get data "method" with
            | JString method =>
              match map_get data "params" with
              | JArray params =>
                let ok := true in
                match MethodByName (Title method) with
                | None =>
                    ret (jsonrpcError (-32601) "Method not found"
                           (JString "Method not found") (Some id))
                | Some call =>
                  match coerce_params ok (In call) id 0 params with
                  | None => panic
                  | Some (inl r) => ret r
                  | Some (inr args) =>
                      result <- invoke (Title method) call args ;;
                      respond result id
                  end
                end
              | _ =>
                  ret (jsonrpcError (-32602) "Invalid params"
                         (JString "No or invalid 'params' in request") (Some id))
              end
            | _ =>
                ret (jsonrpcError (-32600) "Invalid Request"
                       (JString "No or invalid 'method' in request") (Some id))
            end
          | _ =>
              ret (jsonrpcError (-32600) "Invalid Request"
                     (JString "Version of jsonrpc is not 2.0") (Some id))
          end
        | _ =>
            ret (jsonrpcError (-32600) "Invalid Request"
                   (JString "No or invalid 'id' in request") None)
        end
      end
    end
  end.

End Dispatcher.

(* ================================================================= *)
(** ** The registered service and sequences of calls *)

(** The values the four operations of [*api.Signer] return. *)
Inductive SignerResult : Type :=
| ResPaymaster (r : PaymasterResult)
| ResGasRemain (g : GasRemain)
| ResConfig (c : PaymasterConfig)
| ResBool (b : bool).

(** The pair (result, error) of an operation as [call.Call] returns it;
    [zero] is the first value of a failed call. *)
Definition to_results {A} (wrap : A -> SignerResult) (zero : RetVal SignerResult)
  (m : M A) : M (list (RetVal SignerResult)) :=
  fun w =>
    match m w with
    | (Returned a, w') => (Returned [RetValue (wrap a); RetNil], w')
    | (Failed e, w') => (Returned [zero; RetError e], w')
    | (Panicked, w') => (Panicked, w')
    end.

(** The exported methods of [*api.Signer] as [MethodByName] finds them;
    [Call] panics on arguments that do not fit the signature. *)
Definition Signer_MethodByName (s : Signer) (conf : Config) (env : Env)
  (name : string) : option (Method SignerResult) :=
  if String.eqb name "Pm_sponsorUserOperation" then
    Some (mkMethod _ [(Map, "map[string]interface {}"); (String_, "string")]
            (fun args =>
               match args with
               | [VMap op; VString entryPoint] =>
                   to_results ResPaymaster RetNil
                     (Pm_sponsorUserOperation s env op entryPoint)
               | _ => panic
               end))
  else if String.eqb name "Pm_gasRemain" then
    Some (mkMethod _ [(String_, "string")]
            (fun args =>
               match args with
               | [VString addr] =>
                   to_results ResGasRemain RetNil (Pm_gasRemain env addr)
               | _ => panic
               end))
  else if String.eqb name "Pm_config" then
    Some (mkMethod _ []
            (fun args =>
               match args with
               | [] => to_results ResConfig RetNil (Pm_config conf)
               | _ => panic
               end))
  else if String.eqb name "Pm_requestGas" then
    Some (mkMethod _ [(String_, "string")]
            (fun args =>
               match args with
               | [VString addr] =>
                   to_results ResBool (RetValue (ResBool false))
                     (Pm_requestGas s env addr)
               | _ => panic
               end))
  else None.

(** One call of the API, and what it meets outside the process. *)
Inductive ApiCall : Type :=
| CallSponsorUserOperation (op : RawOp) (entryPoint : string)
| CallRequestGas (addr : string)
| CallGasRemain (addr : string)
| CallConfig.

Definition run_call (s : Signer) (conf : Config) (c : Env * ApiCall) (w : World)
  : World :=
  match c with
  | (env, CallSponsorUserOperation op entryPoint) =>
      snd (Pm_sponsorUserOperation s env op entryPoint w)
  | (env, CallRequestGas addr) => snd (Pm_requestGas s env addr w)
  | (env, CallGasRemain addr) => snd (Pm_gasRemain env addr w)
  | (env, CallConfig) => snd (Pm_config conf w)
  end.

Definition run_calls (s : Signer) (conf : Config) (cs : list (Env * ApiCall))
  (w : World) : World :=
  fold_left (fun w c => run_call s conf c w) cs w.

(* ================================================================= *)
(** ** Vocabulary of the properties *)

(** The amount a sponsorship charges, in the words of the design:
    the three gas limits added up, times the fee. *)
Definition totalCost (preVerificationGas verificationGasLimit callGasLimit
                      maxFeePerGas : Z) : Z :=
  (preVerificationGas + verificationGasLimit + callGasLimit) * maxFeePerGas.

(** The encoding of the validity window inside [paymasterAndData]. *)
Definition abiEncode (validUntil validAfter : Z) : bytes :=
  U256Bytes validUntil ++ U256Bytes validAfter.

Definition is_save (e : Event) : bool :=
  match e with
  | EvSave _ _ => true
  | _ => false
  end.

(** The persistence writes attempted in a trace. *)
Definition saves (t : list Event) : list Event := filter is_save t.

Definition is_invoke (e : Event) : bool :=
  match e with
  | EvInvoke _ _ => true
  | _ => false
  end.

(** The account after a charge of [cost]. *)
Definition charged (a : Account) (used remain cost : Z) : Account :=
  set_RemainGas (set_UsedGas a (big.Text (used + cost))) (big.Text (remain - cost)).

(** Every signing in a run of events comes after a committed save. *)
Fixpoint signs_follow_commit (committed : bool) (evs : list Event) : bool :=
  match evs with
  | [] => true
  | EvSave _ true :: r => signs_follow_commit true r
  | EvSign _ :: r => committed && signs_follow_commit committed r
  | _ :: r => signs_follow_commit committed r
  end.

(** The token id [Pm_requestGas] observes for a caller: [-1] when the
    ownership query fails. *)
Definition observed_vip (env : Env) (addr : string) : Z :=
  match TokenOfOwnerByIndex env addr with
  | inl _ => -1
  | inr index => big.Int64 index
  end.

(** The rate-limit test of the source, on int64. *)
Definition rate_limited (a : Account) (now : Z) : bool :=
  int64_add (LastRequest a) 86400 >? now.

(** The tier ceiling that goes with a caller's status. *)
Definition tier_of (s : Signer) (vip : Z) (existing : option Account) : option Z :=
  if negb (vip =? -1) then MaxVipGas s
  else match existing with
       | None => CreateGas s
       | Some _ => MaxGas s
       end.

(** The parser [types.NewUserOperation], which is outside the sources,
    returns operations with an unsigned fee, as the design computes the
    charge on unsigned integers. *)
Definition fee_unsigned (env : Env) : Prop :=
  forall raw op, NewUserOperation env raw = inr op -> 0 <= MaxFeePerGas op.

(** The tier ceilings read from the configuration are not negative. *)
Definition tiers_unsigned (s : Signer) : Prop :=
  (forall z, CreateGas s = Some z -> 0 <= z) /\
  (forall z, MaxGas s = Some z -> 0 <= z) /\
  (forall z, MaxVipGas s = Some z -> 0 <= z).

(** The declared shapes for which the loop checks the wire value. *)
Definition checked_kind (k : Kind) : bool :=
  match k with
  | Float32 | Float64 | Int | Int8 | Int16 | Int32 | Int64
  | Uint | Uint8 | Uint16 | Uint32 | Uint64 | Map | Slice => true
  | _ => false
  end.

(** Whether a wire value has the shape a declared parameter asks for. *)
Definition has_shape (k : Kind) (arg : json) : bool :=
  match k, arg with
  | Float32, _ => false
  | (Float64 | Int | Int8 | Int16 | Int32 | Int64
     | Uint | Uint8 | Uint16 | Uint32 | Uint64), JNumber _ => true
  | Map, JObject _ => true
  | Slice, JArray _ => true
  | String_, JString _ => true
  | Interface, _ => true
  | _, _ => false
  end.

(** Parameter [i] is declared with kind [k] and type text [ty], and its wire
    value does not have that shape. *)
Definition offending {Res} (call : Method Res) (params : list json) (i : nat)
  (k : Kind) (ty : string) : Prop :=
  exists arg, nth_error params i = Some arg /\
              nth_error (In call) i = Some (k, ty) /\
              has_shape k arg = false.

(* ================================================================= *)
(** ** Sample data *)

Definition sample_conf : Config :=
  mkConfig "0xabababababababababababababababababababab" "1000"
    "1000000000000000" "0xcdcdcdcdcdcdcdcdcdcdcdcdcdcdcdcdcdcdcdcd"
    "5000000000000000".

Definition sample_signer : Signer := NewSigner sample_conf (repeat Byte.xab 20).

Definition sample_op (sender : string) (fee : Z) : UserOperation :=
  mkUserOperation sender 7 [] [Byte.x01] 0 0 0 fee 1 [] [Byte.x02].

(** A chain client whose hash is 32 bytes and whose signature is 65 bytes,
    a store whose queries succeed unless [save_err] says otherwise, and a
    clock that shows [now]. *)
Definition sample_env (sender : string) (fee : Z) (token : error + Z)
  (save_err : option error) (now : Z) : Env :=
  mkEnv (fun _ => now)
        (fun key => inr (Some (mkApiKeys key true)))
        (fun _ => inr (sample_op sender fee))
        None None save_err
        (fun _ => token)
        (fun _ _ _ => inr (repeat Byte.x11 32))
        (fun _ => inr (repeat Byte.x22 65)).

Definition no_token : error + Z := inl (PlainError "execution reverted").

Definition sample_now : Z := 1700000000.

(** One enabled account with an allowance, last granted long ago. *)
Definition sample_world : World :=
  mkWorld [mkAccount "0xaaa" true "0" "1000000000000000" 1600000000 (-1)] [] 0.

(** The same account, disabled. *)
Definition disabled_world : World :=
  mkWorld [mkAccount "0xaaa" false "0" "1000000000000000" 1600000000 (-1)] [] 0.

(** The account was granted gas ten seconds before [sample_now]. *)
Definition recent_world (enable : bool) : World :=
  mkWorld [mkAccount "0xaaa" enable "0" "100" (sample_now - 10) (-1)] [] 0.

(** Token 7 is linked to 0xaaa, which used its slot ten seconds ago; the
    holder also has an older account 0xbbb. *)
Definition vip_world : World :=
  mkWorld [mkAccount "0xaaa" true "0" "100" (sample_now - 10) 7;
           mkAccount "0xbbb" true "0" "100" 1600000000 (-1)] [] 0.

(** [cases.Title] on a one-word ASCII name: the first letter in upper case. *)
Definition upper_ascii (c : ascii) : ascii :=
  let n := nat_of_ascii c in
  if ((97 <=? n) && (n <=? 122))%nat then ascii_of_nat (n - 32) else c.

Definition sample_Title (s : string) : string :=
  match s with
  | EmptyString => EmptyString
  | String c r => String (upper_ascii c) r
  end.

(** Truncation toward zero of a float64, for values inside the target range. *)
Definition sample_convert (k : Kind) (f : float64) : Z :=
  match f with
  | S754_finite sign m e =>
      let v := if e >=? 0 then Z.pos m * 2 ^ e else Z.pos m / 2 ^ (- e) in
      if sign then - v else v
  | _ => 0
  end.

Definition one : float64 := S754_finite false 1 0.

Definition sample_request (method : string) (params : list json) : Request :=
  mkRequest "POST"
    (BodyJSON [("jsonrpc", JString "2.0"); ("id", JNumber one);
               ("method", JString method); ("params", JArray params)])
    "k1".

(** The environments and runs used as worked examples. *)
Definition plain_env : Env := sample_env "0xAAA" 1000000000 no_token None sample_now.

Definition costly_env : Env :=
  sample_env "0xAAA" 10000000000 no_token None sample_now.

Definition vip_env : Env := sample_env "0xAAA" 1000000000 (inr 7) None sample_now.

Definition failing_save_env : Env :=
  sample_env "0xAAA" 1000000000 no_token
    (Some (PlainError "database is locked")) sample_now.

Definition sample_sponsored : Outcome PaymasterResult * World :=
  Pm_sponsorUserOperation sample_signer plain_env [] EmptyString sample_world.

Definition sample_result : PaymasterResult :=
  match fst sample_sponsored with
  | Returned r => r
  | _ => mkPaymasterResult EmptyString EmptyString EmptyString EmptyString
  end.

Definition sample_calls : list (Env * ApiCall) :=
  [(plain_env, CallRequestGas "0xBBB");
   (plain_env, CallSponsorUserOperation [] EmptyString);
   (plain_env, CallGasRemain "0xAAA");
   (plain_env, CallConfig)].

Definition sample_dispatch (req : Request) (w : World)
  : Outcome (Response SignerResult) * World :=
  Process SignerResult sample_Title sample_convert
    (Signer_MethodByName sample_signer sample_conf plain_env) plain_env req w.

(** The response that rejects parameter [i], declared with type [ty]. *)
Definition invalid_params_response {Res} (i : nat) (ty : string) (id : float64)
  : Response Res :=
  ErrorResponse (-32602) "Invalid params" (JString (cant_convert i ty)) (Some id).

(** A request that passes the checks made before the method is looked up:
    POST, a known and enabled API key, and a JSON-RPC 2.0 envelope with a
    numeric id, a method name and an array of parameters. *)
Definition well_formed (env : Env) (req : Request) (data : list (string * json))
  (id : float64) (method : string) (params : list json) : Prop :=
  req_Method req = "POST" /\
  req_Body req = BodyJSON data /\
  req_key req <> EmptyString /\
  (exists apiKey,
     FindByKey env (req_key req) = inr (Some apiKey) /\ key_Enable apiKey = true) /\
  map_get data "id" = JNumber id /\
  map_get data "jsonrpc" = JString "2.0" /\
  map_get data "method" = JString method /\
  map_get data "params" = JArray params.

(** A request the API-key gate stops: not a POST, no body, no key in the
    path, or a key whose lookup fails, that is unknown or that is disabled. *)
Definition gate_closed (env : Env) (req : Request) : Prop :=
  req_Method req <> "POST" \/
  req_Body req = NoBody \/
  req_key req = EmptyString \/
  (exists e, FindByKey env (req_key req) = inl e) \/
  FindByKey env (req_key req) = inr None \/
  (exists apiKey,
     FindByKey env (req_key req) = inr (Some apiKey) /\ key_Enable apiKey = false).

(** The operations invoked in a trace. *)
Definition invocations (t : list Event) : list Event := filter is_invoke t.

(** The response to the outcome of an operation that returns a value and an
    error: the value as result, a plain error under code -32601 with its
    text as message and data, a coded error as it is. *)
Definition response_of {A Res} (wrap : A -> Res) (id : float64) (o : Outcome A)
  : Outcome (Response Res) :=
  match o with
  | Returned a => Returned (ResultResponse (RetValue (wrap a)) id)
  | Failed (PlainError msg) =>
      Returned (ErrorResponse (-32601) msg (JString msg) (Some id))
  | Failed (RPCError code msg data) =>
      Returned (ErrorResponse code msg data (Some id))
  | Panicked => Panicked
  end.

(** Further sample data: failing collaborators, a malformed configuration,
    a garbled balance and malformed requests. *)
Definition store_error : error := PlainError "database is locked".

Definition chain_error : error := PlainError "connection refused".

(** The account table cannot be queried. *)
Definition lookup_failing_env : Env :=
  mkEnv (fun _ => sample_now)
        (fun key => inr (Some (mkApiKeys key true)))
        (fun _ => inr (sample_op "0xAAA" 1000000000))
        (Some store_error) (Some store_error) None
        (fun _ => inr 7)
        (fun _ _ _ => inr (repeat Byte.x11 32))
        (fun _ => inr (repeat Byte.x22 65)).

(** The paymaster contract cannot be reached for the hash. *)
Definition hash_down_env : Env :=
  mkEnv (fun _ => sample_now)
        (fun key => inr (Some (mkApiKeys key true)))
        (fun _ => inr (sample_op "0xAAA" 1000000000))
        None None None
        (fun _ => no_token)
        (fun _ _ _ => inl chain_error)
        (fun _ => inr (repeat Byte.x22 65)).

(** No API key is known. *)
Definition keyless_env : Env :=
  mkEnv (fun _ => sample_now)
        (fun _ => inr None)
        (fun _ => inr (sample_op "0xAAA" 1000000000))
        None None None
        (fun _ => no_token)
        (fun _ _ _ => inr (repeat Byte.x11 32))
        (fun _ => inr (repeat Byte.x22 65)).

(** A configuration whose standard ceiling is not decimal text. *)
Definition malformed_conf : Config :=
  mkConfig "0xabababababababababababababababababababab" "1000" "1e15"
    "0xcdcdcdcdcdcdcdcdcdcdcdcdcdcdcdcdcdcdcdcd" "5000000000000000".

Definition malformed_signer : Signer := NewSigner malformed_conf (repeat Byte.xab 20).

Definition sample_account : Account :=
  mkAccount "0xaaa" true "0" "1000000000000000" 1600000000 (-1).

(** An account whose remaining gas is not decimal text. *)
Definition garbled_account : Account :=
  mkAccount "0xaaa" true "0" "<nil>" 1600000000 (-1).

Definition garbled_world : World := mkWorld [garbled_account] [] 0.

Definition empty_world : World := mkWorld [] [] 0.

Definition sample_data (method : string) (params : list json)
  : list (string * json) :=
  [("jsonrpc", JString "2.0"); ("id", JNumber one);
   ("method", JString method); ("params", JArray params)].

(** A request sent with GET, and one whose envelope has no id. *)
Definition get_request : Request :=
  mkRequest "GET" (BodyJSON (sample_data "pm_config" [])) "k1".

Definition idless_request : Request :=
  mkRequest "POST"
    (BodyJSON [("jsonrpc", JString "2.0"); ("method", JString "pm_config");
               ("params", JArray [])])
    "k1".

(** The method of the sample service under a name, as reflection finds it. *)
Definition sample_method (name : string) : Method SignerResult :=
  match Signer_MethodByName sample_signer sample_conf plain_env name with
  | Some call => call
  | None => mkMethod _ [] (fun _ => panic)
  end.

Definition sample_granted : Outcome bool * World :=
  Pm_requestGas sample_signer plain_env "0xBBB" sample_world.

Definition sample_vip_granted : Outcome bool * World :=
  Pm_requestGas sample_signer vip_env "0xBBB" sample_world.

Definition sample_nil_granted : Outcome bool * World :=
  Pm_requestGas malformed_signer plain_env "0xAAA" sample_world.

Definition sample_sponsored_again : Outcome PaymasterResult * World :=
  Pm_sponsorUserOperation sample_signer plain_env [] EmptyString
    (snd sample_sponsored).

Definition sample_result_again : PaymasterResult :=
  match fst sample_sponsored_again with
  | Returned r => r
  | _ => mkPaymasterResult EmptyString EmptyString EmptyString EmptyString
  end.

(* ================================================================= *)
(** ** Proof automation *)

(** Case analysis on the next test the code makes. *)
Ltac destruct_scrutinee T :=
  match T with
  | context [match ?x with _ => _ end] =>
      lazymatch x with
      | context [match _ with _ => _ end] => fail
      | _ => destruct x eqn:?
      end
  end.

Ltac run_in H :=
  repeat (cbv beta iota zeta delta
            [bind ret fail panic deref FindByAddress FindByVipID Save time_Now
             VipContract_TokenOfOwnerByIndex Paymaster_GetHash utils_SignMessage
             timeRangeABI_Pack fst snd] in H;
          cbn [accounts trace ticks log] in H;
          try discriminate H;
          let T := type of H in destruct_scrutinee T).

(* ================================================================= *)
(** ** Facts about the Go values *)

Lemma SetString_digits (d : Decimal.uint) :
  d <> Decimal.Nil ->
  big.SetString (NilZero.string_of_uint d) = Some (Z.of_uint d).
Proof.
  intros Hd. destruct d; try congruence;
    unfold big.SetString; cbn; rewrite NilEmpty.usu; reflexivity.
Qed.

(** Printing then parsing a [big.Int] gives the number back. *)
Lemma SetString_Text (z : Z) : big.SetString (big.Text z) = Some z.
Proof.
  unfold big.Text. destruct z as [|p|p]; cbn [Z.to_int NilZero.string_of_int].
  - reflexivity.
  - rewrite SetString_digits by apply DecimalPos.Unsigned.to_uint_nonnil.
    f_equal. exact (DecimalZ.of_to (Z.pos p)).
  - unfold big.SetString.
    rewrite NilZero.usu by apply DecimalPos.Unsigned.to_uint_nonnil.
    cbn [option_map]. f_equal. exact (DecimalZ.of_to (Z.neg p)).
Qed.

Lemma wrap64_small (z : Z) : - 2 ^ 63 <= z < 2 ^ 63 -> big.wrap64 z = z.
Proof.
  intros H. unfold big.wrap64.
  rewrite Z.mod_small; lia.
Qed.

Lemma byte_of_N_value (n : N) : (n < 256)%N -> Byte.to_N (byte_of_N n) = n.
Proof.
  intros H. unfold byte_of_N.
  destruct (Byte.of_N n) as [b|] eqn:E.
  - now apply Byte.to_of_N.
  - apply Byte.of_N_None_iff in E. lia.
Qed.

Lemma le_bytes_length (len : nat) (n : N) : length (le_bytes len n) = len.
Proof.
  revert n. induction len as [|l IH]; intros n; simpl; [reflexivity|].
  now rewrite IH.
Qed.

Lemma le_value_le_bytes (len : nat) (n : N) :
  le_value (le_bytes len n) = (n mod 256 ^ N.of_nat len)%N.
Proof.
  revert n. induction len as [|l IH]; intros n.
  - simpl. now rewrite N.mod_1_r.
  - cbn [le_bytes le_value]. rewrite IH.
    rewrite byte_of_N_value by (apply N.mod_lt; lia).
    rewrite Nat2N.inj_succ, N.pow_succ_r'.
    rewrite N.Div0.mod_mul_r. lia.
Qed.

Lemma U256Bytes_length (z : Z) : length (U256Bytes z) = 32%nat.
Proof.
  unfold U256Bytes. now rewrite length_rev, le_bytes_length.
Qed.

(** The 32 bytes read back, big-endian, are the value modulo 2^256. *)
Lemma U256Bytes_value (z : Z) : Z.of_N (be_value (U256Bytes z)) = z mod 2 ^ 256.
Proof.
  unfold be_value, U256Bytes. rewrite rev_involutive, le_value_le_bytes.
  assert (H : 0 <= z mod 2 ^ 256 < 2 ^ 256) by (apply Z.mod_pos_bound; lia).
  rewrite N.mod_small.
  - apply Z2N.id. lia.
  - change (256 ^ N.of_nat 32)%N with (Z.to_N (2 ^ 256)).
    apply Z2N.inj_lt; lia.
Qed.

Lemma unhex_hexdigit (n : N) : (n < 16)%N -> unhex (hexdigit n) = Some n.
Proof.
  intros H. destruct n as [|p]; [reflexivity|].
  do 4 (destruct p as [p|p|]; try reflexivity); lia.
Qed.

Lemma hex_Decode_Encode (b : bytes) : hex_Decode (hex_Encode b) = Some b.
Proof.
  induction b as [|x r IH]; [reflexivity|].
  cbn [hex_Encode hex_Decode].
  pose proof (Byte.to_N_bounded x) as Hx.
  rewrite !unhex_hexdigit, IH.
  - do 2 f_equal. unfold byte_of_N.
    replace (16 * (Byte.to_N x / 16) + Byte.to_N x mod 16)%N with (Byte.to_N x)
      by (apply N.div_mod; lia).
    now rewrite Byte.of_to_N.
  - apply N.mod_lt; lia.
  - apply N.Div0.div_lt_upper_bound; lia.
Qed.

(** [hexutil.Encode] loses nothing: the bytes are read back from the text. *)
Lemma hexutil_Decode_Encode (b : bytes) : hexutil_Decode (hexutil_Encode b) = Some b.
Proof. unfold hexutil_Encode, hexutil_Decode. cbn. apply hex_Decode_Encode. Qed.

(* ================================================================= *)
(** ** Facts about the account table *)

Lemma FindByAddress_key (db : Repository) (addr : string) (a : Account) :
  Account_FindByAddress db addr = Some a -> Address a = addr.
Proof.
  induction db as [|b r IH]; cbn; [discriminate|].
  destruct (String.eqb_spec (Address b) addr) as [E|E]; [|exact IH].
  now intros [= <-].
Qed.

Lemma FindByAddress_Save_same (db : Repository) (a : Account) :
  Account_FindByAddress (Repository_Save db a) (Address a) = Some a.
Proof.
  induction db as [|b r IH]; cbn.
  - now rewrite String.eqb_refl.
  - destruct (String.eqb_spec (Address b) (Address a)) as [E|E]; cbn.
    + now rewrite String.eqb_refl.
    + destruct (String.eqb_spec (Address b) (Address a)); [contradiction|exact IH].
Qed.

Lemma FindByAddress_Save_other (db : Repository) (a : Account) (addr : string) :
  addr <> Address a ->
  Account_FindByAddress (Repository_Save db a) addr = Account_FindByAddress db addr.
Proof.
  intros Hne. induction db as [|b r IH]; cbn.
  - destruct (String.eqb_spec (Address a) addr); [congruence|reflexivity].
  - destruct (String.eqb_spec (Address b) (Address a)) as [E|E]; cbn.
    + destruct (String.eqb_spec (Address a) addr); [congruence|].
      destruct (String.eqb_spec (Address b) addr); [congruence|reflexivity].
    + destruct (String.eqb_spec (Address b) addr); [reflexivity|exact IH].
Qed.

(* ================================================================= *)
(** ** Running the engine *)

Lemma saves_app (t u : list Event) : saves (t ++ u) = saves t ++ saves u.
Proof. apply filter_app. Qed.

Lemma saves_log (e : Event) (w : World) :
  is_save e = false -> saves (trace (log e w)) = saves (trace w).
Proof.
  intros H. unfold log. cbn [trace]. rewrite saves_app. cbn. rewrite H.
  apply app_nil_r.
Qed.

(** What a sponsorship that returns has done, step by step. *)
Lemma sponsor_returned (s : Signer) (env : Env) (op : RawOp)
  (entryPoint : string) (w : World) (r : PaymasterResult) (w' : World) :
  Pm_sponsorUserOperation s env op entryPoint w = (Returned r, w') ->
  exists userOp account remain used hash signature,
    let cost := (52304 + 100000 + 33100) * MaxFeePerGas userOp in
    let validAfter := clock env (ticks w) in
    let validUntil := validAfter + validTimeDelay in
    let timeRangeData := U256Bytes validUntil ++ U256Bytes validAfter in
    let unsigned := (Contract s ++ timeRangeData) ++ emptySignature in
    NewUserOperation env op = inr userOp /\
    find_by_address_error env = None /\
    Account_FindByAddress (accounts w) (strings_ToLower (Sender userOp))
      = Some account /\
    big.SetString (RemainGas account) = Some remain /\
    big.SetString (UsedGas account) = Some used /\
    cost <= remain /\
    save_error env = None /\
    GetHash env
      (mkUserOperation (Sender userOp) (Nonce userOp) (InitCode userOp)
         (CallData userOp) 33100 100000 52304 (MaxFeePerGas userOp)
         (MaxPriorityFeePerGas userOp) unsigned [])
      validUntil validAfter = inr hash /\
    SignMessage env hash = inr signature /\
    r = mkPaymasterResult
          (hexutil_Encode ((Contract s ++ timeRangeData) ++ signature))
          (hexutil_Encode (big_Bytes 52304))
          (hexutil_Encode (big_Bytes 100000))
          (hexutil_Encode (big_Bytes 33100)) /\
    w' = mkWorld
           (Repository_Save (accounts w) (charged account used remain cost))
           (trace w ++ [EvFindByAddress (strings_ToLower (Sender userOp));
                        EvSave (charged account used remain cost) true;
                        EvGetHash unsigned; EvSign hash])
           (S (ticks w)).
Proof.
  intros H. unfold Pm_sponsorUserOperation in H.
  run_in H.
  injection H as <- <-.
  match goal with Hc : (_ >? _) = false |- _ => rewrite Z.gtb_ltb, Z.ltb_ge in Hc end.
  do 6 eexists. cbv zeta.
  repeat split; try eassumption.
  unfold charged, log. cbn [accounts trace ticks PaymasterAndData].
  rewrite <- !app_assoc. reflexivity.
Qed.

(** A charge above the remaining gas is refused before anything is
    written. *)
Lemma sponsor_insufficient (s : Signer) (env : Env) (op : RawOp)
  (entryPoint : string) (w : World) (userOp : UserOperation)
  (account : Account) (remain : Z) :
  NewUserOperation env op = inr userOp ->
  find_by_address_error env = None ->
  Account_FindByAddress (accounts w) (strings_ToLower (Sender userOp))
    = Some account ->
  big.SetString (RemainGas account) = Some remain ->
  (52304 + 100000 + 33100) * MaxFeePerGas userOp > remain ->
  exists w',
    Pm_sponsorUserOperation s env op entryPoint w
      = (Failed (errors_New "insufficient gas"), w') /\
    accounts w' = accounts w /\
    saves (trace w') = saves (trace w).
Proof.
  intros Hop Herr Hfind Hrem Hgt.
  unfold Pm_sponsorUserOperation. rewrite Hop.
  cbv beta iota zeta delta [bind FindByAddress deref ret fail].
  rewrite Herr, Hfind, Hrem.
  destruct (Z.gtb_spec ((52304 + 100000 + 33100) * MaxFeePerGas userOp) remain)
    as [_|Hle]; [|lia].
  eexists. split; [reflexivity|].
  split; [reflexivity|]. apply saves_log. reflexivity.
Qed.

(** C1: a successful sponsorship charges
    (preVerificationGas + verificationGasLimit + callGasLimit) * maxFeePerGas
    on unbounded integers, the charge is at most the remaining gas read, the
    stored remaining gas is lowered and the stored used gas raised by it; a
    charge above the remaining gas is refused with "insufficient gas" and
    nothing is written. *)
Theorem sponsor_accounting (s : Signer) (env : Env) (op : RawOp)
  (entryPoint : string) (w : World) :
  (forall r w',
     Pm_sponsorUserOperation s env op entryPoint w = (Returned r, w') ->
     exists userOp account remain used,
       NewUserOperation env op = inr userOp /\
       Account_FindByAddress (accounts w) (strings_ToLower (Sender userOp))
         = Some account /\
       big.SetString (RemainGas account) = Some remain /\
       big.SetString (UsedGas account) = Some used /\
       totalCost 52304 100000 33100 (MaxFeePerGas userOp) <= remain /\
       exists account',
         Account_FindByAddress (accounts w') (strings_ToLower (Sender userOp))
           = Some account' /\
         big.SetString (RemainGas account')
           = Some (remain - totalCost 52304 100000 33100 (MaxFeePerGas userOp)) /\
         big.SetString (UsedGas account')
           = Some (used + totalCost 52304 100000 33100 (MaxFeePerGas userOp)) /\
         res_PreVerificationGas r = hexutil_Encode (big_Bytes 52304) /\
         res_VerificationGasLimit r = hexutil_Encode (big_Bytes 100000) /\
         res_CallGasLimit r = hexutil_Encode (big_Bytes 33100)) /\
  (forall userOp account remain,
     NewUserOperation env op = inr userOp ->
     find_by_address_error env = None ->
     Account_FindByAddress (accounts w) (strings_ToLower (Sender userOp))
       = Some account ->
     big.SetString (RemainGas account) = Some remain ->
     totalCost 52304 100000 33100 (MaxFeePerGas userOp) > remain ->
     exists w',
       Pm_sponsorUserOperation s env op entryPoint w
         = (Failed (errors_New "insufficient gas"), w') /\
       accounts w' = accounts w /\
       saves (trace w') = saves (trace w)).
Proof.
  split.
  - intros r w' H.
    destruct (sponsor_returned _ _ _ _ _ _ _ H)
      as (userOp & account & remain & used & hash & signature & Hrun).
    cbv zeta in Hrun.
    destruct Hrun as (Hop & _ & Hfind & Hrem & Hused & Hle & _ & _ & _ & -> & ->).
    exists userOp, account, remain, used. unfold totalCost.
    repeat split; try assumption.
    exists (charged account used remain
              ((52304 + 100000 + 33100) * MaxFeePerGas userOp)).
    cbn [accounts]. rewrite <- (FindByAddress_key _ _ _ Hfind) at 1.
    change (Address account)
      with (Address (charged account used remain
                       ((52304 + 100000 + 33100) * MaxFeePerGas userOp))).
    rewrite FindByAddress_Save_same.
    cbn [charged set_RemainGas set_UsedGas RemainGas UsedGas res_PreVerificationGas
         res_VerificationGasLimit res_CallGasLimit].
    rewrite !SetString_Text. repeat split.
  - intros userOp account remain Hop Herr Hfind Hrem Hgt.
    eapply sponsor_insufficient; eassumption.
Qed.

Lemma signs_follow_commit_spec (evs : list Event) (committed : bool) :
  signs_follow_commit committed evs = true ->
  forall pre h post, evs = pre ++ EvSign h :: post ->
    committed = true \/ exists a, List.In (EvSave a true) pre.
Proof.
  revert committed. induction evs as [|e r IH]; intros committed Hok pre h post Heq.
  - destruct pre; discriminate.
  - destruct pre as [|e' pre'].
    + injection Heq as -> ->. cbn in Hok. left.
      now apply andb_true_iff in Hok.
    + injection Heq as <- ->.
      destruct e as [| | | |a [|]| | |]; cbn in Hok;
        try (destruct (IH _ Hok pre' h post eq_refl) as [Hc|[a0 Ha]];
             [now left | right; exists a0; now right]).
      * right. exists a. now left.
      * apply andb_true_iff in Hok. destruct Hok as [-> _]. now left.
Qed.

(** C2: a signature is produced only after the deducted balances were
    saved: a failed save makes the call fail with the error of the store,
    without any signing and with the table as it was; a signing in the run
    is preceded by a committed save; a returned authorization comes with
    the deducted account stored. *)
Theorem sponsor_signs_only_after_commit (s : Signer) (env : Env) (op : RawOp)
  (entryPoint : string) (w w' : World) (o : Outcome PaymasterResult) :
  Pm_sponsorUserOperation s env op entryPoint w = (o, w') ->
  exists evs,
    trace w' = trace w ++ evs /\
    (forall a, List.In (EvSave a false) evs ->
       (exists e, save_error env = Some e /\ o = Failed e) /\
       (forall h, ~ List.In (EvSign h) evs) /\
       accounts w' = accounts w) /\
    (forall pre h post, evs = pre ++ EvSign h :: post ->
       exists a, List.In (EvSave a true) pre) /\
    (forall r, o = Returned r ->
       exists a h, List.In (EvSave a true) evs /\ List.In (EvSign h) evs /\
                   accounts w' = Repository_Save (accounts w) a).
Proof.
  intros H. unfold Pm_sponsorUserOperation in H.
  run_in H; injection H as <- <-;
    unfold log; cbn [accounts trace ticks PaymasterAndData];
    repeat match goal with
           | |- context [?c * MaxFeePerGas ?u] =>
               generalize (c * MaxFeePerGas u); intro
           end;
    rewrite <- ?app_assoc;
    (first [ exists []; split; [symmetry; apply app_nil_r|]
           | eexists; split; [reflexivity|] ]);
    (split; [|split]).
  all: lazymatch goal with
       | |- forall a, List.In (EvSave a false) _ -> _ =>
           intros a0 Hin; cbn [List.In app] in Hin;
           repeat match type of Hin with
                  | _ \/ _ => destruct Hin as [Hin|Hin]; try discriminate Hin
                  end;
           try contradiction;
           (split; [eexists; split; reflexivity|]);
           (split; [|reflexivity]);
           intros h Hh; cbn [List.In app] in Hh;
           repeat match type of Hh with
                  | _ \/ _ => destruct Hh as [Hh|Hh]; try discriminate Hh
                  end;
           contradiction
       | |- forall pre h post, _ = pre ++ EvSign h :: post -> _ =>
           intros pre h post Hpre;
           match type of Hpre with
           | ?l = _ =>
               assert (Hs : signs_follow_commit false l = true) by reflexivity
           end;
           destruct (signs_follow_commit_spec _ _ Hs _ _ _ Hpre) as [Hc|Hc];
           [discriminate Hc | exact Hc]
       | |- forall r, _ = Returned r -> _ =>
           intros r Hr; try discriminate Hr;
           do 2 eexists; cbn [List.In app];
           (split; [right; left; reflexivity|]);
           (split; [do 3 right; left; reflexivity|reflexivity])
       end.
Qed.

(** What a grant that returns has done. *)
Lemma requestGas_returned (s : Signer) (env : Env) (addr : string)
  (w : World) (b : bool) (w' : World) :
  Pm_requestGas s env addr w = (Returned b, w') ->
  exists now,
    let existing := Account_FindByAddress (accounts w) (strings_ToLower addr) in
    let vip := observed_vip env addr in
    let base :=
      match existing with
      | Some acc => acc
      | None => mkAccount (strings_ToLower addr) true "0" EmptyString zero_time 0
      end in
    let granted :=
      set_VipID
        (set_LastRequest
           (set_RemainGas base (big.String_ (tier_of s vip existing))) now)
        vip in
    b = true /\
    find_by_address_error env = None /\
    save_error env = None /\
    (forall acc, existing = Some acc ->
       Enable acc = true /\
       exists t, rate_limited acc t = false /\
                 (t = clock env (ticks w) \/ t = clock env (S (ticks w)))) /\
    accounts w' = Repository_Save (accounts w) granted /\
    saves (trace w') = saves (trace w) ++ [EvSave granted true].
Proof.
  intros H. unfold Pm_requestGas in H.
  unfold observed_vip, tier_of, rate_limited.
  run_in H; injection H as <- <-;
    repeat match goal with
           | H : negb _ = true |- _ => apply negb_true_iff in H
           | H : negb _ = false |- _ => apply negb_false_iff in H
           end;
    try match goal with
        | H : (-1 =? -1) = false |- _ => discriminate H
        end;
    try congruence;
    eexists; cbv zeta;
    unfold log; cbn [accounts trace ticks fst snd];
    rewrite ?saves_app; cbn [saves filter is_save app];
    rewrite ?app_nil_r;
    repeat match goal with
           | H : (?x =? -1) = _ |- context [?x =? -1] => rewrite H
           end;
    cbn [negb].
  all: repeat match goal with |- _ /\ _ => split end; try reflexivity; try assumption.
  all: try (intros acc [= <-]; split; [assumption|];
            eexists; split; [eassumption|]; auto).
  all: try (intros acc [=]).
Qed.

Lemma requestGas_failed_keeps (s : Signer) (env : Env) (addr : string)
  (w w' : World) (o : Outcome bool) :
  Pm_requestGas s env addr w = (o, w') ->
  (forall b, o <> Returned b) ->
  accounts w' = accounts w.
Proof.
  intros H Hno. unfold Pm_requestGas in H.
  run_in H; injection H as <- <-; try reflexivity;
    exfalso; eapply Hno; reflexivity.
Qed.

(** The table after a sponsorship: untouched, or one charged account. *)
Lemma sponsor_effect (s : Signer) (env : Env) (op : RawOp) (entryPoint : string)
  (w w' : World) (o : Outcome PaymasterResult) :
  Pm_sponsorUserOperation s env op entryPoint w = (o, w') ->
  accounts w' = accounts w \/
  exists userOp account remain used,
    NewUserOperation env op = inr userOp /\
    Account_FindByAddress (accounts w) (strings_ToLower (Sender userOp))
      = Some account /\
    big.SetString (RemainGas account) = Some remain /\
    big.SetString (UsedGas account) = Some used /\
    (52304 + 100000 + 33100) * MaxFeePerGas userOp <= remain /\
    accounts w' =
      Repository_Save (accounts w)
        (charged account used remain
           ((52304 + 100000 + 33100) * MaxFeePerGas userOp)).
Proof.
  intros H. unfold Pm_sponsorUserOperation in H.
  run_in H; injection H as <- <-;
    unfold log; cbn [accounts trace ticks];
    try (left; reflexivity);
    right;
    match goal with
    | Hc : (_ >? _) = false |- _ => rewrite Z.gtb_ltb, Z.ltb_ge in Hc
    end;
    do 4 eexists; repeat split; eassumption.
Qed.

(** One call keeps the ledger sound: the table is untouched, or one record
    is written whose remaining gas is not negative and whose used gas is
    not below the one it replaces. *)
Lemma call_effect (s : Signer) (conf : Config) (c : Env * ApiCall) (w : World) :
  tiers_unsigned s ->
  fee_unsigned (fst c) ->
  accounts (run_call s conf c w) = accounts w \/
  exists a',
    accounts (run_call s conf c w) = Repository_Save (accounts w) a' /\
    (forall z, big.SetString (RemainGas a') = Some z -> 0 <= z) /\
    (forall old used,
       Account_FindByAddress (accounts w) (Address a') = Some old ->
       big.SetString (UsedGas old) = Some used ->
       exists used', big.SetString (UsedGas a') = Some used' /\ used <= used').
Proof.
  intros (Hcreate & Hmax & Hvip) Hfee.
  destruct c as [env [op entryPoint|addr|addr|]]; cbn [run_call fst] in *.
  - destruct (Pm_sponsorUserOperation s env op entryPoint w) as [o w'] eqn:Hrun.
    cbn [snd].
    destruct (sponsor_effect _ _ _ _ _ _ _ Hrun)
      as [Hsame|(userOp & account & remain & used
                 & Hop & Hfind & Hrem & Hused & Hle & ->)];
      [now left|right].
    pose proof (Hfee _ _ Hop) as Hpos.
    set (cost := (52304 + 100000 + 33100) * MaxFeePerGas userOp) in *.
    assert (Hcost : 0 <= cost) by (subst cost; lia).
    clearbody cost.
    eexists. split; [reflexivity|].
    cbn [charged set_RemainGas set_UsedGas RemainGas UsedGas Address].
    rewrite !SetString_Text. split.
    + intros z [= <-]. lia.
    + intros old used0 Hold Hu.
      rewrite (FindByAddress_key _ _ _ Hfind) in Hold.
      assert (old = account) as -> by congruence.
      assert (used0 = used) as -> by congruence.
      eexists. split; [reflexivity|]. lia.
  - destruct (Pm_requestGas s env addr w) as [o w'] eqn:Hrun. cbn [snd].
    destruct o as [b| |].
    + right.
      destruct (requestGas_returned _ _ _ _ _ _ Hrun) as (now & Hret).
      cbv zeta in Hret.
      destruct Hret as (_ & _ & _ & Hex & -> & _).
      eexists. split; [reflexivity|].
      cbn [set_VipID set_LastRequest set_RemainGas RemainGas UsedGas Address].
      split.
      * intros z Hz. unfold tier_of in Hz.
        destruct (negb (observed_vip env addr =? -1)).
        { destruct (MaxVipGas s) as [v|] eqn:E; [|discriminate Hz].
          cbn [big.String_] in Hz. rewrite SetString_Text in Hz.
          injection Hz as <-. now apply Hvip. }
        destruct (Account_FindByAddress (accounts w) (strings_ToLower addr)).
        { destruct (MaxGas s) as [v|] eqn:E; [|discriminate Hz].
          cbn [big.String_] in Hz. rewrite SetString_Text in Hz.
          injection Hz as <-. now apply Hmax. }
        { destruct (CreateGas s) as [v|] eqn:E; [|discriminate Hz].
          cbn [big.String_] in Hz. rewrite SetString_Text in Hz.
          injection Hz as <-. now apply Hcreate. }
      * intros old used Hold Hu.
        destruct (Account_FindByAddress (accounts w) (strings_ToLower addr))
          as [acc|] eqn:Hfind.
        { pose proof (FindByAddress_key _ _ _ Hfind) as Hk.
          rewrite Hk, Hfind in Hold. injection Hold as <-.
          exists used. split; [assumption|lia]. }
        { cbn [Address] in Hold. congruence. }
    + left. eapply requestGas_failed_keeps; [eassumption|]. intros b [=].
    + left. eapply requestGas_failed_keeps; [eassumption|]. intros b [=].
  - left. unfold Pm_gasRemain, bind, FindByAddress, ret, fail.
    destruct (find_by_address_error env); [reflexivity|].
    destruct (Account_FindByAddress _ _); [|reflexivity].
    destruct (negb _); reflexivity.
  - left. reflexivity.
Qed.

Lemma used_step (s : Signer) (conf : Config) (c : Env * ApiCall) (w : World)
  (addr : string) (a : Account) (used : Z) :
  tiers_unsigned s ->
  fee_unsigned (fst c) ->
  Account_FindByAddress (accounts w) addr = Some a ->
  big.SetString (UsedGas a) = Some used ->
  exists a' used',
    Account_FindByAddress (accounts (run_call s conf c w)) addr = Some a' /\
    big.SetString (UsedGas a') = Some used' /\
    used <= used'.
Proof.
  intros Ht Hf Hfind Hused.
  destruct (call_effect s conf c w Ht Hf) as [->|(a' & -> & _ & Hmono)].
  - exists a, used. repeat split; [assumption..|lia].
  - destruct (string_dec addr (Address a')) as [->|Hne].
    + destruct (Hmono _ _ Hfind Hused) as (used' & Hu' & Hle).
      exists a', used'. rewrite FindByAddress_Save_same. now repeat split.
    + exists a, used. rewrite FindByAddress_Save_other by assumption.
      repeat split; [assumption..|lia].
Qed.

Lemma remain_step (s : Signer) (conf : Config) (c : Env * ApiCall) (w : World) :
  tiers_unsigned s ->
  fee_unsigned (fst c) ->
  (forall addr a z,
     Account_FindByAddress (accounts w) addr = Some a ->
     big.SetString (RemainGas a) = Some z -> 0 <= z) ->
  forall addr a z,
    Account_FindByAddress (accounts (run_call s conf c w)) addr = Some a ->
    big.SetString (RemainGas a) = Some z -> 0 <= z.
Proof.
  intros Ht Hf Hinv addr a z.
  destruct (call_effect s conf c w Ht Hf) as [->|(a' & -> & Hpos & _)].
  - apply Hinv.
  - destruct (string_dec addr (Address a')) as [->|Hne].
    + rewrite FindByAddress_Save_same. intros [= <-]. apply Hpos.
    + rewrite FindByAddress_Save_other by assumption. apply Hinv.
Qed.

(** C5: over any sequence of requestGas, sponsorUserOperation, gasRemain and
    config calls the used gas stored for an account never decreases and no
    stored remaining gas becomes negative, the parser giving unsigned fees
    and the configured ceilings being unsigned; a sponsorship that would
    take the remaining gas below zero is refused before any write. *)
Theorem ledger_invariants (s : Signer) (conf : Config)
  (calls : list (Env * ApiCall)) (w : World) :
  tiers_unsigned s ->
  Forall (fun c => fee_unsigned (fst c)) calls ->
  (forall addr a used,
     Account_FindByAddress (accounts w) addr = Some a ->
     big.SetString (UsedGas a) = Some used ->
     exists a' used',
       Account_FindByAddress (accounts (run_calls s conf calls w)) addr = Some a' /\
       big.SetString (UsedGas a') = Some used' /\
       used <= used') /\
  ((forall addr a z,
      Account_FindByAddress (accounts w) addr = Some a ->
      big.SetString (RemainGas a) = Some z -> 0 <= z) ->
   forall addr a z,
     Account_FindByAddress (accounts (run_calls s conf calls w)) addr = Some a ->
     big.SetString (RemainGas a) = Some z -> 0 <= z) /\
  (forall env op entryPoint userOp account remain,
     NewUserOperation env op = inr userOp ->
     find_by_address_error env = None ->
     Account_FindByAddress (accounts w) (strings_ToLower (Sender userOp))
       = Some account ->
     big.SetString (RemainGas account) = Some remain ->
     remain - totalCost 52304 100000 33100 (MaxFeePerGas userOp) < 0 ->
     exists w',
       Pm_sponsorUserOperation s env op entryPoint w
         = (Failed (errors_New "insufficient gas"), w') /\
       accounts w' = accounts w /\
       saves (trace w') = saves (trace w)).
Proof.
  intros Ht Hfees. split; [|split].
  - revert w. induction Hfees as [|c cs Hc _ IH]; intros w addr a used Hfind Hused.
    + exists a, used. repeat split; [assumption..|lia].
    + destruct (used_step s conf c w addr a used Ht Hc Hfind Hused)
        as (a1 & used1 & Hfind1 & Hused1 & Hle1).
      destruct (IH _ _ _ _ Hfind1 Hused1) as (a' & used' & Hfind' & Hused' & Hle').
      exists a', used'. repeat split; [assumption..|lia].
  - revert w. induction Hfees as [|c cs Hc _ IH]; intros w Hinv.
    + exact Hinv.
    + apply (IH (run_call s conf c w)).
      now apply remain_step.
  - intros env op entryPoint userOp account remain Hop Herr Hfind Hrem Hneg.
    eapply sponsor_insufficient; try eassumption.
    unfold totalCost in Hneg. lia.
Qed.

(** The rate-limit test on timestamps that int64 holds without overflow. *)
Lemma rate_limited_spec (a : Account) (now : Z) :
  - 2 ^ 63 <= LastRequest a ->
  LastRequest a + 86400 < 2 ^ 63 ->
  rate_limited a now = true <-> now < LastRequest a + 86400.
Proof.
  intros Hlo Hhi. unfold rate_limited, int64_add.
  rewrite wrap64_small by lia.
  rewrite Z.gtb_ltb. apply Z.ltb_lt.
Qed.

(** C6, as the code has it: on the non-VIP path an existing account whose
    last grant is less than 24 hours old is refused without any write, with
    "frequent requests" when it is enabled and with "account disabled" when
    it is not. *)
Theorem requestGas_rate_limited (s : Signer) (env : Env) (addr : string)
  (w : World) (account : Account) :
  find_by_address_error env = None ->
  Account_FindByAddress (accounts w) (strings_ToLower addr) = Some account ->
  observed_vip env addr = -1 ->
  - 2 ^ 63 <= LastRequest account ->
  LastRequest account + 86400 < 2 ^ 63 ->
  clock env (ticks w) < LastRequest account + 86400 ->
  exists w',
    Pm_requestGas s env addr w
      = (Failed (errors_New (if Enable account then "frequent requests"
                             else "account disabled")), w') /\
    accounts w' = accounts w /\
    saves (trace w') = saves (trace w).
Proof.
  intros Herr Hfind Hvip Hlo Hhi Hnow.
  apply (rate_limited_spec account _ Hlo Hhi) in Hnow.
  unfold rate_limited in Hnow.
  unfold Pm_requestGas.
  cbv beta iota zeta delta
    [bind ret fail FindByAddress VipContract_TokenOfOwnerByIndex time_Now].
  rewrite Herr. cbn [accounts log ticks]. rewrite Hfind.
  unfold observed_vip in Hvip. rewrite Hvip. cbn [Z.eqb Pos.eqb negb].
  destruct (Enable account); cbn [negb accounts log ticks trace].
  - rewrite Hnow. eexists. split; [reflexivity|]. split; [reflexivity|].
    unfold log. cbn [trace]. rewrite !saves_app. cbn [saves filter is_save].
    now rewrite !app_nil_r.
  - eexists. split; [reflexivity|]. split; [reflexivity|].
    unfold log. cbn [trace]. rewrite !saves_app. cbn [saves filter is_save].
    now rewrite !app_nil_r.
Qed.

(** C7: a grant stores as remaining gas the ceiling of the caller's tier:
    maxVipGas for the holder of a VIP token, createGas for a caller without
    a token and without an account, maxGas for a caller without a token whose
    account exists, is enabled and is past its window. *)
Theorem requestGas_grant_tier (s : Signer) (env : Env) (addr : string)
  (w w' : World) (b : bool) :
  Pm_requestGas s env addr w = (Returned b, w') ->
  exists account',
    b = true /\
    Account_FindByAddress (accounts w') (strings_ToLower addr) = Some account' /\
    (observed_vip env addr <> -1 ->
       RemainGas account' = big.String_ (MaxVipGas s)) /\
    (observed_vip env addr = -1 ->
     Account_FindByAddress (accounts w) (strings_ToLower addr) = None ->
       RemainGas account' = big.String_ (CreateGas s)) /\
    (observed_vip env addr = -1 ->
     forall old,
       Account_FindByAddress (accounts w) (strings_ToLower addr) = Some old ->
       RemainGas account' = big.String_ (MaxGas s) /\
       Enable old = true /\
       exists now, rate_limited old now = false) /\
    (forall z,
       tier_of s (observed_vip env addr)
         (Account_FindByAddress (accounts w) (strings_ToLower addr)) = Some z ->
       big.SetString (RemainGas account') = Some z).
Proof.
  intros H.
  destruct (requestGas_returned _ _ _ _ _ _ H) as (now & Hret).
  cbv zeta in Hret. destruct Hret as (-> & _ & _ & Hex & -> & _).
  match goal with
  | |- context [Repository_Save _ ?g] => set (granted := g)
  end.
  assert (Hk : Address granted = strings_ToLower addr).
  { subst granted. cbn [set_VipID set_LastRequest set_RemainGas Address].
    destruct (Account_FindByAddress (accounts w) (strings_ToLower addr)) eqn:Hfind.
    - now apply FindByAddress_key in Hfind.
    - reflexivity. }
  exists granted. split; [reflexivity|]. split.
  - rewrite <- Hk. apply FindByAddress_Save_same.
  - subst granted.
    cbn [set_VipID set_LastRequest set_RemainGas RemainGas]. unfold tier_of.
    repeat match goal with |- _ /\ _ => split end.
    + intros Hvip. apply Z.eqb_neq in Hvip. now rewrite Hvip.
    + intros -> ->. reflexivity.
    + intros Hvip old Hold. rewrite Hvip, Hold.
      destruct (Hex old Hold) as (He & t & Ht & _).
      split; [reflexivity|]. split; [exact He|]. now exists t.
    + intros z ->. cbn [big.String_]. apply SetString_Text.
Qed.

(** C8: the authorization returned is the text of
    paymasterContractAddress || abiEncode(validUntil, validAfter) || signature,
    where validAfter is the clock reading of the call, validUntil is exactly
    86400 seconds later and the signature is the 65 bytes the key signed. *)
Theorem paymasterAndData_layout (s : Signer) (env : Env) (op : RawOp)
  (entryPoint : string) (w w' : World) (r : PaymasterResult) :
  (forall hash sig, SignMessage env hash = inr sig -> length sig = 65%nat) ->
  Pm_sponsorUserOperation s env op entryPoint w = (Returned r, w') ->
  exists validUntil validAfter signature,
    validAfter = clock env (ticks w) /\
    validUntil - validAfter = 86400 /\
    length signature = 65%nat /\
    (exists hash, SignMessage env hash = inr signature) /\
    length (abiEncode validUntil validAfter) = 64%nat /\
    res_PaymasterAndData r
      = hexutil_Encode (Contract s ++ abiEncode validUntil validAfter ++ signature) /\
    hexutil_Decode (res_PaymasterAndData r)
      = Some (Contract s ++ abiEncode validUntil validAfter ++ signature).
Proof.
  intros Hsig H.
  destruct (sponsor_returned _ _ _ _ _ _ _ H)
    as (userOp & account & remain & used & hash & signature & Hrun).
  cbv zeta in Hrun.
  destruct Hrun as (_ & _ & _ & _ & _ & _ & _ & _ & Hsign & -> & _).
  exists (clock env (ticks w) + validTimeDelay), (clock env (ticks w)), signature.
  cbn [res_PaymasterAndData]. unfold abiEncode.
  repeat match goal with |- _ /\ _ => split end.
  - reflexivity.
  - unfold validTimeDelay. lia.
  - exact (Hsig _ _ Hsign).
  - now exists hash.
  - now rewrite length_app, !U256Bytes_length.
  - now rewrite <- !app_assoc.
  - rewrite hexutil_Decode_Encode. now rewrite <- !app_assoc.
Qed.

(** C10: the entry point passed by the caller has no effect: two calls that
    differ only in it return the same result or error and leave the same
    world. *)
Theorem sponsor_ignores_entryPoint (s : Signer) (env : Env) (op : RawOp)
  (entryPoint1 entryPoint2 : string) (w : World) :
  Pm_sponsorUserOperation s env op entryPoint1 w
    = Pm_sponsorUserOperation s env op entryPoint2 w.
Proof. reflexivity. Qed.

(** An absent account is refused with "insufficient gas" and nothing is
    written. *)
Lemma sponsor_absent_refused (s : Signer) (env : Env) (op : RawOp)
  (entryPoint : string) (w : World) (userOp : UserOperation) :
  NewUserOperation env op = inr userOp ->
  find_by_address_error env = None ->
  Account_FindByAddress (accounts w) (strings_ToLower (Sender userOp)) = None ->
  exists w',
    Pm_sponsorUserOperation s env op entryPoint w
      = (Failed (errors_New "insufficient gas"), w') /\
    accounts w' = accounts w /\
    saves (trace w') = saves (trace w).
Proof.
  intros Hop Herr Hfind. unfold Pm_sponsorUserOperation. rewrite Hop.
  cbv beta iota zeta delta [bind FindByAddress fail].
  rewrite Herr, Hfind.
  eexists. split; [reflexivity|]. split; [reflexivity|].
  apply saves_log. reflexivity.
Qed.

(** C3, the code at a disabled account: the sender's account is stored with
    [Enable = false], and the call returns an authorization, charges the
    account and writes it. *)
Lemma sponsor_disabled_account_is_charged :
  let run :=
    Pm_sponsorUserOperation sample_signer plain_env [] EmptyString disabled_world in
  option_map Enable (Account_FindByAddress (accounts disabled_world) "0xaaa")
    = Some false /\
  (exists r, fst run = Returned r) /\
  fst run <> Failed (errors_New "insufficient gas") /\
  Account_FindByAddress (accounts (snd run)) "0xaaa"
    = Some (mkAccount "0xaaa" false "185404000000000" "814596000000000"
              1600000000 (-1)) /\
  length (saves (trace (snd run))) = 1%nat.
Proof.
  cbv zeta. split; [reflexivity|]. split; [eexists; vm_compute; reflexivity|].
  split; [vm_compute; discriminate|]. split; vm_compute; reflexivity.
Qed.

(** C4, the code at a VIP holder whose token is linked to another account:
    0xaaa holds the slot of token 7 and was granted gas ten seconds ago, yet
    the holder's other address 0xbbb is granted maxVipGas; from an address
    without an account the same request panics on the nil account. *)
Lemma requestGas_vip_slot_not_per_token :
  let run := Pm_requestGas sample_signer vip_env "0xBBB" vip_world in
  observed_vip vip_env "0xBBB" = 7 /\
  (exists linked,
     Account_FindByVipID (accounts vip_world) 7 = Some linked /\
     Address linked = "0xaaa" /\
     rate_limited linked sample_now = true) /\
  fst run = Returned true /\
  option_map RemainGas (Account_FindByAddress (accounts (snd run)) "0xbbb")
    = Some (big.String_ (MaxVipGas sample_signer)) /\
  fst (Pm_requestGas sample_signer vip_env "0xCCC" vip_world) = Panicked.
Proof.
  cbv zeta. split; [reflexivity|].
  split; [eexists; repeat split; vm_compute; reflexivity|].
  repeat split; vm_compute; reflexivity.
Qed.

(** C6 as stated fails at a disabled account granted ten seconds ago: the
    caller holds no token, the account exists and is inside its window, and
    the refusal is "account disabled", not "frequent requests". *)
Lemma requestGas_disabled_not_frequent :
  let run := Pm_requestGas sample_signer plain_env "0xAAA" (recent_world false) in
  (exists account,
     Account_FindByAddress (accounts (recent_world false)) (strings_ToLower "0xAAA")
       = Some account /\
     0 <= clock plain_env (ticks (recent_world false)) - LastRequest account
       < 86400) /\
  observed_vip plain_env "0xAAA" = -1 /\
  fst run = Failed (errors_New "account disabled") /\
  fst run <> Failed (errors_New "frequent requests").
Proof.
  cbv zeta. split.
  - eexists. split; [reflexivity|]. vm_compute. split; [discriminate|reflexivity].
  - split; [reflexivity|]. split; [reflexivity|]. vm_compute. discriminate.
Qed.

(* ================================================================= *)
(** ** The dispatcher's argument loop *)

Lemma coerce_checked (Res : Type) (convert : Kind -> float64 -> Z) (ok : bool)
  (k : Kind) (i : nat) (ty : string) (id : float64) (arg : json) :
  checked_kind k = true ->
  has_shape k arg = false ->
  coerce Res convert ok k i ty id arg = Reject (invalid_params_response i ty id).
Proof.
  intros Hk Hs. destruct k; try discriminate Hk; destruct arg;
    try discriminate Hs; reflexivity.
Qed.

Lemma coerce_reject_inv (Res : Type) (convert : Kind -> float64 -> Z)
  (k : Kind) (i : nat) (ty : string) (id : float64) (arg : json)
  (r : Response Res) :
  coerce Res convert true k i ty id arg = Reject r ->
  r = invalid_params_response i ty id /\
  checked_kind k = true /\ has_shape k arg = false.
Proof.
  intros H. destruct k; destruct arg; cbn in H; try discriminate H;
    injection H as <-; repeat split.
Qed.

(** A string parameter is never rejected: any other wire value is taken as
    the empty string. *)
Lemma coerce_string (Res : Type) (convert : Kind -> float64 -> Z) (ok : bool)
  (i : nat) (ty : string) (id : float64) (arg : json) :
  coerce Res convert ok String_ i ty id arg
    = Arg (VString match arg with JString v => v | _ => EmptyString end).
Proof. reflexivity. Qed.

Lemma coerce_params_rejects (Res : Type) (convert : Kind -> float64 -> Z)
  (params : list json) :
  forall (ins : list (Kind * string)) (id : float64) (i j : nat)
         (k : Kind) (ty : string) (arg : json),
    nth_error params j = Some arg ->
    nth_error ins (i + j) = Some (k, ty) ->
    checked_kind k = true ->
    has_shape k arg = false ->
    exists j' k' ty' arg',
      (j' <= j)%nat /\
      nth_error params j' = Some arg' /\
      nth_error ins (i + j') = Some (k', ty') /\
      checked_kind k' = true /\
      has_shape k' arg' = false /\
      coerce_params Res convert true ins id i params
        = Some (inl (invalid_params_response (i + j') ty' id)).
Proof.
  induction params as [|arg0 rest IH]; intros ins id i j k ty arg Hp Hi Hk Hs.
  - destruct j; discriminate Hp.
  - destruct j as [|j1].
    + injection Hp as ->. rewrite Nat.add_0_r in Hi.
      exists 0%nat, k, ty, arg. rewrite Nat.add_0_r.
      repeat split; try assumption; [lia|].
      cbn [coerce_params]. rewrite Hi, coerce_checked by assumption.
      reflexivity.
    + cbn [nth_error] in Hp. cbn [coerce_params].
      destruct (nth_error ins i) as [[k0 ty0]|] eqn:Hi0.
      * destruct (coerce Res convert true k0 i ty0 id arg0) as [v|r] eqn:Hc.
        { replace (i + S j1)%nat with (S i + j1)%nat in Hi by lia.
          destruct (IH ins id (S i) j1 k ty arg Hp Hi Hk Hs)
            as (j' & k' & ty' & arg' & Hle & Hp' & Hi' & Hk' & Hs' & Hrun).
          exists (S j'), k', ty', arg'.
          replace (i + S j')%nat with (S i + j')%nat by lia.
          repeat split; try assumption; [lia|].
          now rewrite Hrun. }
        { apply coerce_reject_inv in Hc. destruct Hc as (-> & Hk0 & Hs0).
          exists 0%nat, k0, ty0, arg0. rewrite Nat.add_0_r.
          repeat split; try assumption. lia. }
      * exfalso. apply nth_error_None in Hi0.
        assert (Hlt : (i + S j1 < length ins)%nat)
          by (apply nth_error_Some; congruence).
        lia.
Qed.

(** C9, as the code has it: when a parameter declared with a numeric,
    float, mapping or ordered-sequence shape carries a wire value of
    another shape, the dispatcher answers "Invalid params" (-32602) naming
    the first such parameter and the operation is not invoked; a string
    parameter is not checked, any other wire value being passed on as the
    empty string. *)
Theorem dispatch_rejects_checked_mismatch (Res : Type)
  (Title : string -> string) (convert : Kind -> float64 -> Z)
  (MethodByName : string -> option (Method Res)) (env : Env)
  (req : Request) (w : World)
  (data : list (string * json)) (apiKey : ApiKeys) (id : float64)
  (method : string) (params : list json) (call : Method Res)
  (i : nat) (k : Kind) (ty : string) :
  req_Method req = "POST" ->
  req_Body req = BodyJSON data ->
  req_key req <> EmptyString ->
  FindByKey env (req_key req) = inr (Some apiKey) ->
  key_Enable apiKey = true ->
  map_get data "id" = JNumber id ->
  map_get data "jsonrpc" = JString "2.0" ->
  map_get data "method" = JString method ->
  map_get data "params" = JArray params ->
  MethodByName (Title method) = Some call ->
  offending call params i k ty ->
  checked_kind k = true ->
  (exists j kj tyj,
     (j <= i)%nat /\
     offending call params j kj tyj /\
     checked_kind kj = true /\
     Process Res Title convert MethodByName env req w
       = (Returned (ErrorResponse (-32602) "Invalid params"
                      (JString (cant_convert j tyj)) (Some id)),
          log (EvFindByKey (req_key req)) w)) /\
  (forall ok n tyn arg,
     coerce Res convert ok String_ n tyn id arg
       = Arg (VString match arg with JString v => v | _ => EmptyString end)).
Proof.
  intros Hpost Hbody Hkey Hfind Hen Hid Hver Hmeth Hparams Hcall
         (arg & Hp & Hi & Hs) Hk.
  split; [|intros; apply coerce_string].
  destruct (coerce_params_rejects Res convert params (In call) id 0 i k ty arg
            Hp Hi Hk Hs)
    as (j & kj & tyj & argj & Hle & Hpj & Hij & Hkj & Hsj & Hrun).
  exists j, kj, tyj. split; [exact Hle|].
  split; [now exists argj|]. split; [exact Hkj|].
  unfold Process. rewrite Hpost, Hbody.
  apply String.eqb_neq in Hkey. rewrite Hkey.
  cbv beta iota zeta delta [bind ApiKeys_FindByKey ret].
  rewrite Hfind, Hen, Hid, Hver, Hmeth, Hparams, Hcall, Hrun.
  reflexivity.
Qed.


(** C9 as stated fails at a string parameter: [pm_gasRemain] declares one
    string, the wire value is a number, and the operation is invoked with
    the empty string and its result is returned. *)
Lemma dispatch_string_mismatch_is_invoked :
  let req := sample_request "pm_gasRemain" [JNumber one] in
  (exists call,
     Signer_MethodByName sample_signer sample_conf plain_env
       (sample_Title "pm_gasRemain") = Some call /\
     offending call [JNumber one] 0 String_ "string") /\
  fst (sample_dispatch req sample_world)
    = Returned (ResultResponse
                  (RetValue (ResGasRemain (mkGasRemain "0" 0 "0"))) one) /\
  List.In (EvInvoke "Pm_gasRemain" [VString EmptyString])
    (trace (snd (sample_dispatch req sample_world))).
Proof.
  cbv zeta. split; [|split].
  - eexists. split; [reflexivity|]. exists (JNumber one). now repeat split.
  - vm_compute. reflexivity.
  - vm_compute. right. left. reflexivity.
Qed.

(* ================================================================= *)
(** ** Worked instances *)

(** The sample sponsorship returns. *)
Lemma sample_sponsored_eq :
  sample_sponsored = (Returned sample_result, snd sample_sponsored).
Proof. vm_compute. reflexivity. Qed.

(** The sample parser returns an unsigned fee. *)
Lemma plain_env_fee_unsigned : fee_unsigned plain_env.
Proof. intros raw op [= <-]. unfold sample_op. cbn [MaxFeePerGas]. lia. Qed.

Lemma sample_calls_fee_unsigned :
  Forall (fun c => fee_unsigned (fst c)) sample_calls.
Proof. repeat constructor; exact plain_env_fee_unsigned. Qed.

(** The sample ceilings are 1000, 10^15 and 5 * 10^15. *)
Lemma sample_signer_tiers_unsigned : tiers_unsigned sample_signer.
Proof. repeat split; intros z H; vm_compute in H; injection H as <-; lia. Qed.

(** C1 at the sample account: a fee of 10^9 charges 185404 * 10^9 of the
    10^15 remaining; a fee of 10^10 is refused. *)
Lemma sponsor_accounting_witness :
  (exists account',
     Account_FindByAddress (accounts (snd sample_sponsored)) "0xaaa" = Some account' /\
     big.SetString (RemainGas account') = Some 814596000000000 /\
     big.SetString (UsedGas account') = Some 185404000000000) /\
  (exists w',
     Pm_sponsorUserOperation sample_signer costly_env [] EmptyString sample_world
       = (Failed (errors_New "insufficient gas"), w') /\
     accounts w' = accounts sample_world /\
     saves (trace w') = saves (trace sample_world)).
Proof.
  split.
  - destruct (proj1 (sponsor_accounting sample_signer plain_env [] EmptyString
                       sample_world)
                sample_result (snd sample_sponsored) sample_sponsored_eq)
      as (userOp & account & remain & used & Hop & Hfind & Hrem & Hused & _
          & account' & Hfind' & Hrem' & Hused' & _).
    injection Hop as <-.
    injection Hfind as <-.
    injection Hrem as <-.
    injection Hused as <-.
    exists account'. repeat split; assumption.
  - apply (proj2 (sponsor_accounting sample_signer costly_env [] EmptyString
                    sample_world)
             (sample_op "0xAAA" 10000000000)
             (mkAccount "0xaaa" true "0" "1000000000000000" 1600000000 (-1))
             1000000000000000);
      reflexivity.
Defined.

(** C2 with a store that refuses the write: nothing is signed and the table
    is as it was. *)
Lemma sponsor_signs_only_after_commit_witness :
  exists evs,
    trace (snd (Pm_sponsorUserOperation sample_signer failing_save_env [] EmptyString
                  sample_world))
      = trace sample_world ++ evs /\
    (forall h, ~ List.In (EvSign h) evs) /\
    accounts (snd (Pm_sponsorUserOperation sample_signer failing_save_env [] EmptyString
                     sample_world))
      = accounts sample_world.
Proof.
  destruct (sponsor_signs_only_after_commit sample_signer failing_save_env []
              EmptyString
              sample_world _ _ (surjective_pairing _))
    as (evs & Htrace & Hfail & _).
  exists evs. split; [exact Htrace|].
  apply (Hfail (mkAccount "0xaaa" true "185404000000000" "814596000000000"
                  1600000000 (-1))).
  vm_compute in Htrace. subst evs.
  right. left. reflexivity.
Defined.

(** C5 over a grant, a sponsorship, a query and a configuration read. *)
Lemma ledger_invariants_witness :
  exists a' used',
    Account_FindByAddress
      (accounts (run_calls sample_signer sample_conf sample_calls sample_world))
      "0xaaa" = Some a' /\
    big.SetString (UsedGas a') = Some used' /\
    0 <= used'.
Proof.
  apply (proj1 (ledger_invariants sample_signer sample_conf sample_calls sample_world
                  sample_signer_tiers_unsigned
                  sample_calls_fee_unsigned)
           "0xaaa"
           (mkAccount "0xaaa" true "0" "1000000000000000" 1600000000 (-1)) 0);
    reflexivity.
Defined.

(** C6 at an enabled account granted ten seconds ago. *)
Lemma requestGas_rate_limited_witness :
  exists w',
    Pm_requestGas sample_signer plain_env "0xAAA" (recent_world true)
      = (Failed (errors_New "frequent requests"), w') /\
    accounts w' = accounts (recent_world true) /\
    saves (trace w') = saves (trace (recent_world true)).
Proof.
  apply (requestGas_rate_limited sample_signer plain_env "0xAAA" (recent_world true)
           (mkAccount "0xaaa" true "0" "100" (sample_now - 10) (-1)));
    try reflexivity; vm_compute; discriminate.
Defined.

(** C7 at a first-time caller without a token: the grant is createGas. *)
Lemma requestGas_grant_tier_witness :
  exists account',
    Account_FindByAddress
      (accounts (snd (Pm_requestGas sample_signer plain_env "0xBBB" sample_world)))
      "0xbbb" = Some account' /\
    RemainGas account' = "1000".
Proof.
  destruct (requestGas_grant_tier sample_signer plain_env "0xBBB" sample_world
              (snd (Pm_requestGas sample_signer plain_env "0xBBB" sample_world))
              true)
    as (account' & _ & Hfind & _ & Hcreate & _).
  - vm_compute. reflexivity.
  - exists account'. split; [exact Hfind|].
    exact (Hcreate eq_refl eq_refl).
Defined.

(** C8 at the sample sponsorship, issued at 1700000000. *)
Lemma paymasterAndData_layout_witness :
  exists validUntil validAfter signature,
    validAfter = 1700000000 /\
    validUntil - validAfter = 86400 /\
    length signature = 65%nat /\
    res_PaymasterAndData sample_result
      = hexutil_Encode
          (Contract sample_signer ++ abiEncode validUntil validAfter ++ signature).
Proof.
  destruct (paymasterAndData_layout sample_signer plain_env [] EmptyString sample_world
              (snd sample_sponsored) sample_result)
    as (validUntil & validAfter & signature
        & Hafter & Hdelay & Hlen & _ & _ & Henc & _).
  - intros hash sig [= <-]. reflexivity.
  - exact sample_sponsored_eq.
  - exists validUntil, validAfter, signature.
    repeat split; assumption.
Defined.

(** C9 at [pm_sponsorUserOperation] called with a number where the
    operation is declared with a mapping. *)
Lemma dispatch_rejects_checked_mismatch_witness :
  exists j tyj,
    (j <= 0)%nat /\
    sample_dispatch
      (sample_request "pm_sponsorUserOperation" [JNumber one; JString "0x"])
      sample_world
      = (Returned (ErrorResponse (-32602) "Invalid params"
                     (JString (cant_convert j tyj)) (Some one)),
         log (EvFindByKey "k1") sample_world).
Proof.
  destruct (Signer_MethodByName sample_signer sample_conf plain_env
              "Pm_sponsorUserOperation") as [call|] eqn:Hcall;
    [|discriminate Hcall].
  destruct (proj1 (dispatch_rejects_checked_mismatch SignerResult sample_Title
              sample_convert
              (Signer_MethodByName sample_signer sample_conf plain_env) plain_env
              (sample_request "pm_sponsorUserOperation" [JNumber one; JString "0x"])
              sample_world
              [("jsonrpc", JString "2.0"); ("id", JNumber one);
               ("method", JString "pm_sponsorUserOperation");
               ("params", JArray [JNumber one; JString "0x"])]
              (mkApiKeys "k1" true) one "pm_sponsorUserOperation"
              [JNumber one; JString "0x"] call 0 Map "map[string]interface {}"
              eq_refl eq_refl ltac:(discriminate) eq_refl eq_refl eq_refl eq_refl
              eq_refl eq_refl Hcall
              ltac:(injection Hcall as <-; exists (JNumber one); repeat split)
              eq_refl))
    as (j & kj & tyj & Hle & _ & _ & Hrun).
  exists j, tyj. split; [exact Hle|exact Hrun].
Defined.

(* ================================================================= *)
(** ** Further properties of the sponsorship *)

(** X1: a sponsorship is refused before any balance is read when the
    operation does not parse (the parser's error comes back and the store is
    not queried) and when the sender's account is absent or its lookup fails
    (both give "insufficient gas", the store's own error being dropped);
    nothing is written. *)
Theorem sponsor_early_refusals (s : Signer) (env : Env) (op : RawOp)
  (entryPoint : string) (w : World) :
  (forall e, NewUserOperation env op = inl e ->
     Pm_sponsorUserOperation s env op entryPoint w = (Failed e, w)) /\
  (forall userOp,
     NewUserOperation env op = inr userOp ->
     find_by_address_error env <> None \/
     Account_FindByAddress (accounts w) (strings_ToLower (Sender userOp)) = None ->
     Pm_sponsorUserOperation s env op entryPoint w
       = (Failed (errors_New "insufficient gas"),
          log (EvFindByAddress (strings_ToLower (Sender userOp))) w)).
Proof.
  split.
  - intros e He. unfold Pm_sponsorUserOperation. now rewrite He.
  - intros userOp Hop Hno. unfold Pm_sponsorUserOperation. rewrite Hop.
    cbv beta iota zeta delta [bind FindByAddress fail].
    destruct (find_by_address_error env) as [e|]; [reflexivity|].
    destruct Hno as [Hno|Hno]; [congruence|]. now rewrite Hno.
Qed.

(** X2: a stored balance that is not decimal text makes the sponsorship
    panic on the nil [*big.Int]: at the comparison for the remaining gas, at
    the addition for the used gas; in both cases before anything is
    written. *)
Theorem sponsor_unparsable_balance_panics (s : Signer) (env : Env) (op : RawOp)
  (entryPoint : string) (w : World) (userOp : UserOperation) (account : Account) :
  NewUserOperation env op = inr userOp ->
  find_by_address_error env = None ->
  Account_FindByAddress (accounts w) (strings_ToLower (Sender userOp))
    = Some account ->
  big.SetString (RemainGas account) = None \/
  (exists remain,
     big.SetString (RemainGas account) = Some remain /\
     (52304 + 100000 + 33100) * MaxFeePerGas userOp <= remain /\
     big.SetString (UsedGas account) = None) ->
  Pm_sponsorUserOperation s env op entryPoint w
    = (Panicked, log (EvFindByAddress (strings_ToLower (Sender userOp))) w).
Proof.
  intros Hop Herr Hfind Hbad. unfold Pm_sponsorUserOperation. rewrite Hop.
  cbv beta iota zeta delta [bind FindByAddress deref ret fail panic].
  rewrite Herr, Hfind.
  destruct Hbad as [Hrem|(remain & Hrem & Hle & Hused)]; rewrite Hrem.
  - reflexivity.
  - destruct (Z.gtb_spec ((52304 + 100000 + 33100) * MaxFeePerGas userOp) remain)
      as [Hgt|_]; [lia|].
    now rewrite Hused.
Qed.

(** X3: the charge is committed before the hash and the signature are asked
    for and is not taken back: when the paymaster hash call or the signing
    fails, the call fails with that error and the sender's stored record is
    the charged one. *)
Theorem sponsor_failure_after_commit (s : Signer) (env : Env) (op : RawOp)
  (entryPoint : string) (w : World) (userOp : UserOperation) (account : Account)
  (remain used : Z) (e : error) :
  NewUserOperation env op = inr userOp ->
  find_by_address_error env = None ->
  Account_FindByAddress (accounts w) (strings_ToLower (Sender userOp))
    = Some account ->
  big.SetString (RemainGas account) = Some remain ->
  big.SetString (UsedGas account) = Some used ->
  (52304 + 100000 + 33100) * MaxFeePerGas userOp <= remain ->
  save_error env = None ->
  (forall u validUntil validAfter, GetHash env u validUntil validAfter = inl e) \/
  ((forall u validUntil validAfter,
      exists hash, GetHash env u validUntil validAfter = inr hash) /\
   (forall hash, SignMessage env hash = inl e)) ->
  exists w',
    Pm_sponsorUserOperation s env op entryPoint w = (Failed e, w') /\
    Account_FindByAddress (accounts w') (strings_ToLower (Sender userOp))
      = Some (charged account used remain
                ((52304 + 100000 + 33100) * MaxFeePerGas userOp)).
Proof.
  intros Hop Herr Hfind Hrem Hused Hle Hsave Hdown.
  pose proof (FindByAddress_key _ _ _ Hfind) as Hkey.
  unfold Pm_sponsorUserOperation. rewrite Hop.
  cbv beta iota zeta delta
    [bind FindByAddress deref ret fail Save time_Now timeRangeABI_Pack
     Paymaster_GetHash utils_SignMessage].
  rewrite Herr, Hfind, Hrem.
  destruct (Z.gtb_spec ((52304 + 100000 + 33100) * MaxFeePerGas userOp) remain)
    as [Hgt|_]; [lia|].
  rewrite Hused, Hsave.
  set (cost := (52304 + 100000 + 33100) * MaxFeePerGas userOp) in *.
  fold (charged account used remain cost).
  assert (Hstored :
            Account_FindByAddress
              (Repository_Save (accounts w) (charged account used remain cost))
              (strings_ToLower (Sender userOp))
            = Some (charged account used remain cost)).
  { rewrite <- Hkey.
    change (Address account) with (Address (charged account used remain cost)).
    apply FindByAddress_Save_same. }
  destruct Hdown as [Hhash|[Hhash Hsign]].
  - rewrite Hhash. eexists. split; [reflexivity|]. exact Hstored.
  - match goal with
    | |- context [GetHash env ?u ?vu ?va] =>
        destruct (Hhash u vu va) as (hash & ->)
    end.
    rewrite Hsign. eexists. split; [reflexivity|]. exact Hstored.
Qed.

(** X4: a sponsorship touches one record at most, the sender's, and in it
    only the two gas amounts: every other address reads as before, an
    address without a record still has none (no account is provisioned),
    and a record keeps its address, enabled flag, last grant time and
    token. *)
Theorem sponsor_frame (s : Signer) (env : Env) (op : RawOp)
  (entryPoint : string) (w w' : World) (o : Outcome PaymasterResult) :
  Pm_sponsorUserOperation s env op entryPoint w = (o, w') ->
  forall addr,
    (forall userOp,
       NewUserOperation env op = inr userOp ->
       addr <> strings_ToLower (Sender userOp) ->
       Account_FindByAddress (accounts w') addr
         = Account_FindByAddress (accounts w) addr) /\
    (Account_FindByAddress (accounts w) addr = None ->
     Account_FindByAddress (accounts w') addr = None) /\
    (forall a,
       Account_FindByAddress (accounts w) addr = Some a ->
       exists a',
         Account_FindByAddress (accounts w') addr = Some a' /\
         Address a' = Address a /\ Enable a' = Enable a /\
         LastRequest a' = LastRequest a /\ VipID a' = VipID a).
Proof.
  intros H addr.
  destruct (sponsor_effect _ _ _ _ _ _ _ H)
    as [->|(userOp & account & remain & used
            & Hop & Hfind & _ & _ & _ & ->)].
  - repeat split; try tauto. intros a Ha. exists a. now repeat split.
  - pose proof (FindByAddress_key _ _ _ Hfind) as Hkey.
    set (cost := (52304 + 100000 + 33100) * MaxFeePerGas userOp).
    assert (Haddr : Address (charged account used remain cost)
                    = strings_ToLower (Sender userOp)) by exact Hkey.
    split; [|split].
    + intros userOp' Hop' Hne.
      assert (userOp' = userOp) as -> by congruence.
      apply FindByAddress_Save_other. now rewrite Haddr.
    + intros Hnone.
      rewrite FindByAddress_Save_other; [exact Hnone|].
      rewrite Haddr. intros ->. congruence.
    + intros a Ha.
      destruct (string_dec addr (strings_ToLower (Sender userOp))) as [->|Hne].
      * assert (a = account) as -> by congruence.
        exists (charged account used remain cost).
        rewrite <- Haddr at 1. rewrite FindByAddress_Save_same.
        now repeat split.
      * exists a. rewrite FindByAddress_Save_other by now rewrite Haddr.
        now repeat split.
Qed.

(** The balance query, run. *)
Lemma gasRemain_run (env : Env) (addr : string) (w : World) :
  Pm_gasRemain env addr w
    = (match find_by_address_error env with
       | Some e => Failed e
       | None =>
           match Account_FindByAddress (accounts w) (strings_ToLower addr) with
           | Some account =>
               if Enable account
               then Returned (mkGasRemain (RemainGas account) (LastRequest account)
                                (UsedGas account))
               else Returned (mkGasRemain "0" 0 "0")
           | None => Returned (mkGasRemain "0" 0 "0")
           end
       end,
       log (EvFindByAddress (strings_ToLower addr)) w).
Proof.
  unfold Pm_gasRemain. cbv beta iota zeta delta [bind FindByAddress ret fail].
  destruct (find_by_address_error env); [reflexivity|].
  destruct (Account_FindByAddress _ _) as [a|]; [|reflexivity].
  now destruct (Enable a).
Qed.

(** X5: what a sponsorship stored is what the balance query then reports:
    after a returned sponsorship, [Pm_gasRemain] for the sender gives the
    remaining gas lowered and the used gas raised by the charge when the
    account is enabled, and zeros when it is disabled. *)
Theorem sponsor_then_gasRemain (s : Signer) (env env2 : Env) (op : RawOp)
  (entryPoint : string) (w w' : World) (r : PaymasterResult) :
  Pm_sponsorUserOperation s env op entryPoint w = (Returned r, w') ->
  find_by_address_error env2 = None ->
  exists userOp account remain used,
    NewUserOperation env op = inr userOp /\
    Account_FindByAddress (accounts w) (strings_ToLower (Sender userOp))
      = Some account /\
    big.SetString (RemainGas account) = Some remain /\
    big.SetString (UsedGas account) = Some used /\
    fst (Pm_gasRemain env2 (Sender userOp) w')
      = Returned
          (if Enable account
           then mkGasRemain
                  (big.Text (remain - (52304 + 100000 + 33100) * MaxFeePerGas userOp))
                  (LastRequest account)
                  (big.Text (used + (52304 + 100000 + 33100) * MaxFeePerGas userOp))
           else mkGasRemain "0" 0 "0").
Proof.
  intros H Herr2.
  destruct (sponsor_returned _ _ _ _ _ _ _ H)
    as (userOp & account & remain & used & hash & signature & Hrun).
  cbv zeta in Hrun.
  destruct Hrun as (Hop & _ & Hfind & Hrem & Hused & _ & _ & _ & _ & _ & ->).
  exists userOp, account, remain, used.
  repeat match goal with |- _ /\ _ => split; [assumption|] end.
  set (cost := (52304 + 100000 + 33100) * MaxFeePerGas userOp).
  rewrite gasRemain_run, Herr2. cbn [accounts fst].
  rewrite <- (FindByAddress_key _ _ _ Hfind) at 1.
  change (Address account) with (Address (charged account used remain cost)) at 1.
  rewrite FindByAddress_Save_same.
  cbn [charged set_RemainGas set_UsedGas Enable RemainGas UsedGas LastRequest].
  now destruct (Enable account).
Qed.

(** X6: two sponsorships in a row for the same sender are charged one on top
    of the other: the second reads the balance the first stored, so both
    return only when the two charges together fit in the remaining gas, and
    the ledger then holds both. *)
Theorem sponsor_twice (s : Signer) (env1 env2 : Env) (op1 op2 : RawOp)
  (entryPoint1 entryPoint2 : string) (w w1 w2 : World)
  (r1 r2 : PaymasterResult) (u1 u2 : UserOperation) (account : Account)
  (remain used : Z) :
  Pm_sponsorUserOperation s env1 op1 entryPoint1 w = (Returned r1, w1) ->
  Pm_sponsorUserOperation s env2 op2 entryPoint2 w1 = (Returned r2, w2) ->
  NewUserOperation env1 op1 = inr u1 ->
  NewUserOperation env2 op2 = inr u2 ->
  strings_ToLower (Sender u2) = strings_ToLower (Sender u1) ->
  Account_FindByAddress (accounts w) (strings_ToLower (Sender u1)) = Some account ->
  big.SetString (RemainGas account) = Some remain ->
  big.SetString (UsedGas account) = Some used ->
  totalCost 52304 100000 33100 (MaxFeePerGas u1)
    + totalCost 52304 100000 33100 (MaxFeePerGas u2) <= remain /\
  exists account2,
    Account_FindByAddress (accounts w2) (strings_ToLower (Sender u1))
      = Some account2 /\
    big.SetString (RemainGas account2)
      = Some (remain - totalCost 52304 100000 33100 (MaxFeePerGas u1)
                     - totalCost 52304 100000 33100 (MaxFeePerGas u2)) /\
    big.SetString (UsedGas account2)
      = Some (used + totalCost 52304 100000 33100 (MaxFeePerGas u1)
                   + totalCost 52304 100000 33100 (MaxFeePerGas u2)).
Proof.
  intros H1 H2 Hop1 Hop2 Hsame Hfind Hrem Hused. unfold totalCost.
  destruct (sponsor_returned _ _ _ _ _ _ _ H1)
    as (u1' & a1 & rem1 & used1 & hash1 & sig1 & Hrun1).
  cbv zeta in Hrun1.
  destruct Hrun1 as (Hop1' & _ & Hf1 & Hr1 & Hu1 & Hle1 & _ & _ & _ & _ & Hw1).
  assert (u1' = u1) as -> by congruence.
  assert (a1 = account) as -> by congruence.
  assert (rem1 = remain) as -> by congruence.
  assert (used1 = used) as -> by congruence.
  set (c1 := (52304 + 100000 + 33100) * MaxFeePerGas u1) in *.
  pose proof (FindByAddress_key _ _ _ Hfind) as Hkey.
  assert (Hstored : Account_FindByAddress (accounts w1) (strings_ToLower (Sender u1))
                    = Some (charged account used remain c1)).
  { rewrite Hw1. cbn [accounts]. rewrite <- Hkey at 1.
    change (Address account) with (Address (charged account used remain c1)) at 1.
    apply FindByAddress_Save_same. }
  destruct (sponsor_returned _ _ _ _ _ _ _ H2)
    as (u2' & a2 & rem2 & used2 & hash2 & sig2 & Hrun2).
  cbv zeta in Hrun2.
  destruct Hrun2 as (Hop2' & _ & Hf2 & Hr2 & Hu2 & Hle2 & _ & _ & _ & _ & Hw2).
  assert (u2' = u2) as -> by congruence.
  rewrite Hsame, Hstored in Hf2. injection Hf2 as <-.
  cbn [charged set_RemainGas set_UsedGas RemainGas UsedGas] in Hr2, Hu2.
  rewrite SetString_Text in Hr2, Hu2.
  injection Hr2 as <-. injection Hu2 as <-.
  set (c2 := (52304 + 100000 + 33100) * MaxFeePerGas u2) in *.
  split; [lia|].
  exists (charged (charged account used remain c1) (used + c1) (remain - c1) c2).
  split.
  - rewrite Hw2. cbn [accounts]. rewrite <- Hsame.
    rewrite Hsame. rewrite <- Hkey at 1.
    change (Address account)
      with (Address (charged (charged account used remain c1)
                       (used + c1) (remain - c1) c2)) at 1.
    apply FindByAddress_Save_same.
  - cbn [charged set_RemainGas set_UsedGas RemainGas UsedGas].
    now rewrite !SetString_Text.
Qed.

(** X7: the balance query never writes; it forwards the error of a failed
    lookup, answers zeros both for an address without a record and for a
    disabled account (the two cannot be told apart), and reports the stored
    texts and the last grant time of an enabled account as they are. *)
Theorem gasRemain_read_only (env : Env) (addr : string) (w : World) :
  accounts (snd (Pm_gasRemain env addr w)) = accounts w /\
  saves (trace (snd (Pm_gasRemain env addr w))) = saves (trace w) /\
  (forall e, find_by_address_error env = Some e ->
     fst (Pm_gasRemain env addr w) = Failed e) /\
  (find_by_address_error env = None ->
   Account_FindByAddress (accounts w) (strings_ToLower addr) = None \/
   (exists a, Account_FindByAddress (accounts w) (strings_ToLower addr) = Some a /\
              Enable a = false) ->
   fst (Pm_gasRemain env addr w) = Returned (mkGasRemain "0" 0 "0")) /\
  (find_by_address_error env = None ->
   forall a,
     Account_FindByAddress (accounts w) (strings_ToLower addr) = Some a ->
     Enable a = true ->
     fst (Pm_gasRemain env addr w)
       = Returned (mkGasRemain (RemainGas a) (LastRequest a) (UsedGas a))).
Proof.
  rewrite gasRemain_run. cbn [fst snd].
  split; [reflexivity|]. split; [now apply saves_log|].
  split; [|split].
  - now intros e ->.
  - intros -> [->|(a & -> & ->)]; reflexivity.
  - intros -> a -> ->. reflexivity.
Qed.

(* ================================================================= *)
(** ** Further properties of the grant *)

Lemma FindByVipID_Save (db : Repository) (a : Account) :
  exists b, Account_FindByVipID (Repository_Save db a) (VipID a) = Some b.
Proof.
  induction db as [|c r IH]; cbn.
  - rewrite Z.eqb_refl. now exists a.
  - destruct (String.eqb (Address c) (Address a)); cbn.
    + rewrite Z.eqb_refl. now exists a.
    + destruct (VipID c =? VipID a); [now exists c|exact IH].
Qed.

(** The clock reading a grant stores: one of the first three of the call. *)
Lemma requestGas_grant_time (s : Signer) (env : Env) (addr : string)
  (w : World) (b : bool) (w' : World) :
  Pm_requestGas s env addr w = (Returned b, w') ->
  exists k a,
    (k <= 2)%nat /\
    saves (trace w') = saves (trace w) ++ [EvSave a true] /\
    LastRequest a = clock env (ticks w + k).
Proof.
  intros H. unfold Pm_requestGas in H.
  run_in H; injection H as <- <-;
    unfold log; cbn [accounts trace ticks fst snd];
    rewrite ?saves_app; cbn [saves filter is_save app];
    rewrite ?app_nil_r;
    lazymatch goal with
    | |- context [set_LastRequest _ (clock _ (S (S _)))] => exists 2%nat
    | |- context [set_LastRequest _ (clock _ (S _))] => exists 1%nat
    | |- _ => exists 0%nat
    end;
    eexists; (split; [lia|]); (split; [reflexivity|]);
    cbn [set_VipID set_LastRequest set_RemainGas LastRequest];
    f_equal; lia.
Qed.

(** A request inside the window of an enabled account, without a token. *)
Lemma requestGas_refused_in_window (s : Signer) (env : Env) (addr : string)
  (w : World) (account : Account) :
  find_by_address_error env = None ->
  Account_FindByAddress (accounts w) (strings_ToLower addr) = Some account ->
  Enable account = true ->
  observed_vip env addr = -1 ->
  rate_limited account (clock env (ticks w)) = true ->
  Pm_requestGas s env addr w
    = (Failed (errors_New "frequent requests"),
       mkWorld (accounts w)
         (trace w ++ [EvFindByAddress (strings_ToLower addr); EvTokenOfOwner addr])
         (S (ticks w))).
Proof.
  intros Herr Hfind Hen Hvip Hnow. unfold rate_limited in Hnow.
  unfold Pm_requestGas.
  cbv beta iota zeta delta
    [bind ret fail FindByAddress VipContract_TokenOfOwnerByIndex time_Now].
  rewrite Herr. cbn [accounts log ticks]. rewrite Hfind.
  unfold observed_vip in Hvip. rewrite Hvip. cbn [Z.eqb Pos.eqb negb].
  rewrite Hen. cbn [negb accounts log ticks trace]. rewrite Hnow.
  now rewrite <- app_assoc.
Qed.

(** A request by a token holder whose own last grant is inside the window,
    some account being linked to the token. *)
Lemma requestGas_vip_refused_in_window (s : Signer) (env : Env) (addr : string)
  (w : World) (account linked : Account) :
  find_by_address_error env = None ->
  find_by_vip_error env = None ->
  Account_FindByAddress (accounts w) (strings_ToLower addr) = Some account ->
  observed_vip env addr <> -1 ->
  Account_FindByVipID (accounts w) (observed_vip env addr) = Some linked ->
  rate_limited account (clock env (ticks w)) = true ->
  Pm_requestGas s env addr w
    = (Failed (errors_New "frequent requests with NFT"),
       mkWorld (accounts w)
         (trace w ++ [EvFindByAddress (strings_ToLower addr); EvTokenOfOwner addr;
                      EvFindByVipID (observed_vip env addr)])
         (S (ticks w))).
Proof.
  intros Herr Hverr Hfind Hvip Hlinked Hnow. unfold rate_limited in Hnow.
  unfold Pm_requestGas.
  cbv beta iota zeta delta
    [bind ret fail deref FindByAddress FindByVipID VipContract_TokenOfOwnerByIndex
     time_Now].
  rewrite Herr. cbn [accounts log ticks]. rewrite Hfind.
  unfold observed_vip in *.
  apply Z.eqb_neq in Hvip. rewrite Hvip. cbn [negb].
  rewrite Hverr. cbn [accounts log ticks]. rewrite Hlinked.
  cbn [accounts log ticks trace]. rewrite Hnow.
  now rewrite <- !app_assoc.
Qed.

(** X8: a grant writes one record, the caller's: it is enabled, carries the
    lower-cased address, one of the first three clock readings of the call
    as last grant time and the observed token id ([-1] when the ownership
    query fails); the used gas is the one of the existing account, or "0"
    for a new one; every other address reads as before. *)
Theorem requestGas_grant_record (s : Signer) (env : Env) (addr : string)
  (w w' : World) (b : bool) :
  Pm_requestGas s env addr w = (Returned b, w') ->
  exists granted k,
    (k <= 2)%nat /\
    Account_FindByAddress (accounts w') (strings_ToLower addr) = Some granted /\
    Address granted = strings_ToLower addr /\
    Enable granted = true /\
    LastRequest granted = clock env (ticks w + k) /\
    VipID granted = observed_vip env addr /\
    (Account_FindByAddress (accounts w) (strings_ToLower addr) = None ->
     UsedGas granted = "0") /\
    (forall old,
       Account_FindByAddress (accounts w) (strings_ToLower addr) = Some old ->
       UsedGas granted = UsedGas old /\ Enable old = true) /\
    (forall other,
       other <> strings_ToLower addr ->
       Account_FindByAddress (accounts w') other
         = Account_FindByAddress (accounts w) other).
Proof.
  intros H.
  destruct (requestGas_grant_time _ _ _ _ _ _ H) as (k & a & Hk & Hsaved & Htime).
  destruct (requestGas_returned _ _ _ _ _ _ H) as (now & Hret).
  cbv zeta in Hret. destruct Hret as (_ & _ & _ & Hex & Hacc & Hsaved').
  rewrite Hsaved in Hsaved'. apply app_inv_head in Hsaved'.
  injection Hsaved' as ->.
  match type of Hacc with
  | _ = Repository_Save _ ?g => set (granted := g) in *
  end.
  assert (Hkey : Address granted = strings_ToLower addr).
  { subst granted. cbn [set_VipID set_LastRequest set_RemainGas Address].
    destruct (Account_FindByAddress (accounts w) (strings_ToLower addr)) eqn:Hfind.
    - now apply FindByAddress_key in Hfind.
    - reflexivity. }
  exists granted, k. rewrite Hacc.
  split; [exact Hk|]. split; [rewrite <- Hkey; apply FindByAddress_Save_same|].
  split; [exact Hkey|].
  split.
  { subst granted. cbn [set_VipID set_LastRequest set_RemainGas Enable].
    destruct (Account_FindByAddress (accounts w) (strings_ToLower addr)) as [old|];
      [now apply (Hex old)|reflexivity]. }
  split; [exact Htime|]. split; [reflexivity|].
  split; [|split].
  - intros Hnone. subst granted. now rewrite Hnone.
  - intros old Hold. split; [subst granted; now rewrite Hold|now apply (Hex old)].
  - intros other Hne. apply FindByAddress_Save_other. now rewrite Hkey.
Qed.

(** After a grant the caller's record is there, enabled, with the observed
    token id and the ceiling of the tier as remaining gas. *)
Lemma requestGas_stored (s : Signer) (env : Env) (addr : string)
  (w w' : World) (b : bool) :
  Pm_requestGas s env addr w = (Returned b, w') ->
  exists granted,
    Account_FindByAddress (accounts w') (strings_ToLower addr) = Some granted /\
    Enable granted = true /\
    VipID granted = observed_vip env addr /\
    RemainGas granted
      = big.String_ (tier_of s (observed_vip env addr)
                       (Account_FindByAddress (accounts w) (strings_ToLower addr))) /\
    exists b', Account_FindByVipID (accounts w') (observed_vip env addr) = Some b'.
Proof.
  intros H.
  destruct (requestGas_returned _ _ _ _ _ _ H) as (now & Hret).
  cbv zeta in Hret. destruct Hret as (_ & _ & _ & Hex & Hacc & _).
  match type of Hacc with
  | _ = Repository_Save _ ?g => set (granted := g) in *
  end.
  assert (Hkey : Address granted = strings_ToLower addr).
  { subst granted. cbn [set_VipID set_LastRequest set_RemainGas Address].
    destruct (Account_FindByAddress (accounts w) (strings_ToLower addr)) eqn:Hfind.
    - now apply FindByAddress_key in Hfind.
    - reflexivity. }
  exists granted. rewrite Hacc.
  split; [rewrite <- Hkey; apply FindByAddress_Save_same|].
  split.
  { subst granted. cbn [set_VipID set_LastRequest set_RemainGas Enable].
    destruct (Account_FindByAddress (accounts w) (strings_ToLower addr)) as [old|];
      [now apply (Hex old)|reflexivity]. }
  split; [reflexivity|]. split; [reflexivity|].
  exact (FindByVipID_Save (accounts w) granted).
Qed.

(** X9: the rate limit holds from one grant to the next request: after a
    grant, a request for the same address by a caller without a token is
    refused with "frequent requests", and nothing is written, as long as the
    clock it reads is less than 86400 seconds past the stored grant time. *)
Theorem requestGas_twice_refused (s : Signer) (env1 env2 : Env) (addr : string)
  (w w1 : World) (b : bool) :
  Pm_requestGas s env1 addr w = (Returned b, w1) ->
  find_by_address_error env2 = None ->
  observed_vip env2 addr = -1 ->
  exists granted,
    Account_FindByAddress (accounts w1) (strings_ToLower addr) = Some granted /\
    (- 2 ^ 63 <= LastRequest granted ->
     LastRequest granted + 86400 < 2 ^ 63 ->
     clock env2 (ticks w1) < LastRequest granted + 86400 ->
     exists w2,
       Pm_requestGas s env2 addr w1 = (Failed (errors_New "frequent requests"), w2) /\
       accounts w2 = accounts w1 /\
       saves (trace w2) = saves (trace w1)).
Proof.
  intros H1 Herr2 Hvip2.
  destruct (requestGas_stored _ _ _ _ _ _ H1) as (granted & Hfind & Hen & _).
  exists granted. split; [exact Hfind|].
  intros Hlo Hhi Hnow.
  apply (rate_limited_spec granted _ Hlo Hhi) in Hnow.
  rewrite (requestGas_refused_in_window s env2 addr w1 granted Herr2 Hfind Hen
             Hvip2 Hnow).
  eexists. split; [reflexivity|]. split; [reflexivity|].
  cbn [trace]. rewrite saves_app. cbn. apply app_nil_r.
Qed.

(** X10: the VIP slot is limited for the caller's own address: after a grant
    to a token holder, a second request from the same address while the
    token is still observed is refused with "frequent requests with NFT",
    and nothing is written, as long as the clock it reads is less than 86400
    seconds past the stored grant time. *)
Theorem requestGas_vip_twice_refused (s : Signer) (env1 env2 : Env)
  (addr : string) (w w1 : World) (b : bool) :
  Pm_requestGas s env1 addr w = (Returned b, w1) ->
  observed_vip env1 addr <> -1 ->
  observed_vip env2 addr = observed_vip env1 addr ->
  find_by_address_error env2 = None ->
  find_by_vip_error env2 = None ->
  exists granted,
    Account_FindByAddress (accounts w1) (strings_ToLower addr) = Some granted /\
    VipID granted = observed_vip env1 addr /\
    (- 2 ^ 63 <= LastRequest granted ->
     LastRequest granted + 86400 < 2 ^ 63 ->
     clock env2 (ticks w1) < LastRequest granted + 86400 ->
     exists w2,
       Pm_requestGas s env2 addr w1
         = (Failed (errors_New "frequent requests with NFT"), w2) /\
       accounts w2 = accounts w1 /\
       saves (trace w2) = saves (trace w1)).
Proof.
  intros H1 Hvip1 Hvip2 Herr2 Hverr2.
  destruct (requestGas_stored _ _ _ _ _ _ H1)
    as (granted & Hfind & _ & Hid & _ & linked & Hlinked).
  exists granted. split; [exact Hfind|]. split; [exact Hid|].
  intros Hlo Hhi Hnow.
  apply (rate_limited_spec granted _ Hlo Hhi) in Hnow.
  rewrite <- Hvip2 in Hvip1, Hlinked.
  rewrite (requestGas_vip_refused_in_window s env2 addr w1 granted linked
             Herr2 Hverr2 Hfind Hvip1 Hlinked Hnow).
  eexists. split; [reflexivity|]. split; [reflexivity|].
  cbn [trace]. rewrite saves_app. cbn. apply app_nil_r.
Qed.

(** X11: a disabled account is refused a grant with "account disabled" at
    any time, when the caller holds no token or no account is linked to the
    token; nothing is written. *)
Theorem requestGas_disabled_refused (s : Signer) (env : Env) (addr : string)
  (w : World) (account : Account) :
  find_by_address_error env = None ->
  Account_FindByAddress (accounts w) (strings_ToLower addr) = Some account ->
  Enable account = false ->
  observed_vip env addr = -1 \/
  (find_by_vip_error env = None /\
   Account_FindByVipID (accounts w) (observed_vip env addr) = None) ->
  exists w',
    Pm_requestGas s env addr w = (Failed (errors_New "account disabled"), w') /\
    accounts w' = accounts w /\
    saves (trace w') = saves (trace w).
Proof.
  intros Herr Hfind Hen Hvip.
  unfold Pm_requestGas.
  cbv beta iota zeta delta
    [bind ret fail deref FindByAddress FindByVipID VipContract_TokenOfOwnerByIndex
     time_Now].
  rewrite Herr. cbn [accounts log ticks]. rewrite Hfind.
  unfold observed_vip in Hvip.
  destruct (match TokenOfOwnerByIndex env addr with
            | inl _ => -1
            | inr index => big.Int64 index
            end =? -1) eqn:Hsentinel; cbn [negb].
  - rewrite Hen. cbn [negb]. eexists. split; [reflexivity|].
    split; [reflexivity|]. rewrite !saves_log; reflexivity.
  - destruct Hvip as [Hvip|[Hverr Hnone]].
    + rewrite Hvip in Hsentinel. discriminate Hsentinel.
    + rewrite Hverr. cbn [accounts log ticks]. rewrite Hnone, Hen. cbn [negb].
      eexists. split; [reflexivity|]. split; [reflexivity|].
      rewrite !saves_log; reflexivity.
Qed.

(** X12: a token holder who has no account of their own, while some account
    is linked to the token, makes the request panic on the nil account; the
    table is as it was and nothing is written. *)
Theorem requestGas_vip_without_account_panics (s : Signer) (env : Env)
  (addr : string) (w : World) (linked : Account) :
  find_by_address_error env = None ->
  find_by_vip_error env = None ->
  Account_FindByAddress (accounts w) (strings_ToLower addr) = None ->
  observed_vip env addr <> -1 ->
  Account_FindByVipID (accounts w) (observed_vip env addr) = Some linked ->
  exists w',
    Pm_requestGas s env addr w = (Panicked, w') /\
    accounts w' = accounts w /\
    saves (trace w') = saves (trace w).
Proof.
  intros Herr Hverr Hfind Hvip Hlinked.
  unfold Pm_requestGas.
  cbv beta iota zeta delta
    [bind ret fail panic deref FindByAddress FindByVipID
     VipContract_TokenOfOwnerByIndex time_Now].
  rewrite Herr. cbn [accounts log ticks]. rewrite Hfind.
  unfold observed_vip in *.
  apply Z.eqb_neq in Hvip. rewrite Hvip. cbn [negb].
  rewrite Hverr. cbn [accounts log ticks]. rewrite Hlinked.
  eexists. split; [reflexivity|]. split; [reflexivity|].
  rewrite !saves_log; reflexivity.
Qed.

(** X13: a failing store ends the request with the store's error and without
    a write: a failed lookup of the caller before the chain is asked about
    the token, a failed lookup of the linked account after it. *)
Theorem requestGas_lookup_errors (s : Signer) (env : Env) (addr : string)
  (w : World) :
  (forall e, find_by_address_error env = Some e ->
     Pm_requestGas s env addr w
       = (Failed e, log (EvFindByAddress (strings_ToLower addr)) w)) /\
  (forall e, find_by_address_error env = None ->
     observed_vip env addr <> -1 ->
     find_by_vip_error env = Some e ->
     Pm_requestGas s env addr w
       = (Failed e,
          log (EvFindByVipID (observed_vip env addr))
            (log (EvTokenOfOwner addr)
               (log (EvFindByAddress (strings_ToLower addr)) w)))).
Proof.
  split.
  - intros e He. unfold Pm_requestGas.
    cbv beta iota zeta delta [bind ret fail FindByAddress]. now rewrite He.
  - intros e Herr Hvip Hverr. unfold Pm_requestGas.
    cbv beta iota zeta delta
      [bind ret fail FindByAddress FindByVipID VipContract_TokenOfOwnerByIndex].
    rewrite Herr. unfold observed_vip in *.
    apply Z.eqb_neq in Hvip. rewrite Hvip. cbn [negb]. now rewrite Hverr.
Qed.

(** X14: a ceiling that is not decimal text in the configuration is a nil
    [*big.Int]: a grant of that tier stores the text "<nil>" as remaining
    gas, and the next sponsorship for that account panics. *)
Theorem nil_tier_grant_then_sponsor_panics (s : Signer) (env1 env2 : Env)
  (addr : string) (w w1 : World) (b : bool) (op : RawOp) (entryPoint : string)
  (userOp : UserOperation) :
  Pm_requestGas s env1 addr w = (Returned b, w1) ->
  tier_of s (observed_vip env1 addr)
    (Account_FindByAddress (accounts w) (strings_ToLower addr)) = None ->
  NewUserOperation env2 op = inr userOp ->
  strings_ToLower (Sender userOp) = strings_ToLower addr ->
  find_by_address_error env2 = None ->
  (exists granted,
     Account_FindByAddress (accounts w1) (strings_ToLower addr) = Some granted /\
     RemainGas granted = "<nil>") /\
  fst (Pm_sponsorUserOperation s env2 op entryPoint w1) = Panicked.
Proof.
  intros H1 Hnil Hop Hsender Herr2.
  destruct (requestGas_stored _ _ _ _ _ _ H1)
    as (granted & Hfind & _ & _ & Hrem & _).
  rewrite Hnil in Hrem. cbn [big.String_] in Hrem.
  split; [now exists granted|].
  unfold Pm_sponsorUserOperation. rewrite Hop.
  cbv beta iota zeta delta [bind FindByAddress deref ret fail panic].
  rewrite Herr2. cbn [accounts log]. rewrite Hsender, Hfind, Hrem.
  reflexivity.
Qed.

(* ================================================================= *)
(** ** Further properties of sequences of calls *)

(** One call writes no record, or one that keeps the enabled flag of the
    record it replaces. *)
Lemma call_identity (s : Signer) (conf : Config) (c : Env * ApiCall) (w : World) :
  accounts (run_call s conf c w) = accounts w \/
  exists a',
    accounts (run_call s conf c w) = Repository_Save (accounts w) a' /\
    (forall old,
       Account_FindByAddress (accounts w) (Address a') = Some old ->
       Enable a' = Enable old).
Proof.
  destruct c as [env [op entryPoint|addr|addr|]]; cbn [run_call].
  - destruct (Pm_sponsorUserOperation s env op entryPoint w) as [o w'] eqn:Hrun.
    cbn [snd].
    destruct (sponsor_effect _ _ _ _ _ _ _ Hrun)
      as [Hsame|(userOp & account & remain & used
                 & _ & Hfind & _ & _ & _ & ->)];
      [now left|right].
    eexists. split; [reflexivity|].
    cbn [charged set_RemainGas set_UsedGas Address Enable].
    intros old Hold.
    rewrite (FindByAddress_key _ _ _ Hfind) in Hold. congruence.
  - destruct (Pm_requestGas s env addr w) as [o w'] eqn:Hrun. cbn [snd].
    destruct o as [b| |].
    + right.
      destruct (requestGas_returned _ _ _ _ _ _ Hrun) as (now & Hret).
      cbv zeta in Hret. destruct Hret as (_ & _ & _ & _ & -> & _).
      eexists. split; [reflexivity|].
      cbn [set_VipID set_LastRequest set_RemainGas Address Enable].
      intros old Hold.
      destruct (Account_FindByAddress (accounts w) (strings_ToLower addr))
        as [acc|] eqn:Hfind.
      * rewrite (FindByAddress_key _ _ _ Hfind) in Hold. congruence.
      * cbn [Address] in Hold. congruence.
    + left. eapply requestGas_failed_keeps; [eassumption|]. intros b [=].
    + left. eapply requestGas_failed_keeps; [eassumption|]. intros b [=].
  - left. now rewrite gasRemain_run.
  - left. reflexivity.
Qed.

(** X15: no call of the API deletes, disables or enables an account: over
    any sequence of calls a record that is found stays found under its
    address, with the enabled flag it had. *)
Theorem accounts_persist (s : Signer) (conf : Config)
  (calls : list (Env * ApiCall)) (w : World) (addr : string) (a : Account) :
  Account_FindByAddress (accounts w) addr = Some a ->
  exists a',
    Account_FindByAddress (accounts (run_calls s conf calls w)) addr = Some a' /\
    Address a' = addr /\
    Enable a' = Enable a.
Proof.
  revert w a. induction calls as [|c cs IH]; intros w a Hfind.
  - exists a. split; [exact Hfind|].
    split; [now apply FindByAddress_key in Hfind|reflexivity].
  - cbn [run_calls fold_left].
    assert (Hstep : exists a1,
               Account_FindByAddress (accounts (run_call s conf c w)) addr = Some a1 /\
               Enable a1 = Enable a).
    { destruct (call_identity s conf c w) as [->|(a' & -> & Hen)].
      - now exists a.
      - destruct (string_dec addr (Address a')) as [->|Hne].
        + exists a'. rewrite FindByAddress_Save_same. split; [reflexivity|].
          now apply Hen.
        + exists a. now rewrite FindByAddress_Save_other. }
    destruct Hstep as (a1 & Hfind1 & Hen1).
    destruct (IH _ _ Hfind1) as (a' & Hfind' & Haddr & Hen').
    exists a'. split; [exact Hfind'|]. split; [exact Haddr|]. congruence.
Qed.

Lemma sponsor_writes_once (s : Signer) (env : Env) (op : RawOp)
  (entryPoint : string) (w : World) :
  exists l,
    saves (trace (snd (Pm_sponsorUserOperation s env op entryPoint w)))
      = saves (trace w) ++ l /\
    (length l <= 1)%nat.
Proof.
  destruct (Pm_sponsorUserOperation s env op entryPoint w) as [o w'] eqn:H.
  unfold Pm_sponsorUserOperation in H.
  run_in H; injection H as <- <-;
    unfold log; cbn [accounts trace ticks snd];
    rewrite ?saves_app; cbn [saves filter is_save app];
    rewrite ?app_nil_r;
    first [ exists []; split; [now rewrite app_nil_r|cbn; lia]
          | eexists; split; [reflexivity|cbn; lia] ].
Qed.

Lemma requestGas_writes_once (s : Signer) (env : Env) (addr : string) (w : World) :
  exists l,
    saves (trace (snd (Pm_requestGas s env addr w))) = saves (trace w) ++ l /\
    (length l <= 1)%nat.
Proof.
  destruct (Pm_requestGas s env addr w) as [o w'] eqn:H.
  unfold Pm_requestGas in H.
  run_in H; injection H as <- <-;
    unfold log; cbn [accounts trace ticks snd];
    rewrite ?saves_app; cbn [saves filter is_save app];
    rewrite ?app_nil_r;
    first [ exists []; split; [now rewrite app_nil_r|cbn; lia]
          | eexists; split; [reflexivity|cbn; lia] ].
Qed.

(** X16: every call of the API attempts at most one write to the account
    table, and the two queries none: over a sequence of calls the writes
    attempted are at most as many as the sponsorships and grants in it. *)
Theorem writes_bounded (s : Signer) (conf : Config)
  (calls : list (Env * ApiCall)) (w : World) :
  (length (saves (trace (run_calls s conf calls w)))
   <= length (saves (trace w))
      + length (filter (fun c => match snd c with
                                 | CallSponsorUserOperation _ _ => true
                                 | CallRequestGas _ => true
                                 | _ => false
                                 end) calls))%nat.
Proof.
  revert w. induction calls as [|[env c] cs IH]; intros w.
  - cbn. lia.
  - cbn [run_calls fold_left]. specialize (IH (run_call s conf (env, c) w)).
    unfold run_calls in IH.
    etransitivity; [exact IH|].
    destruct c as [op entryPoint|addr|addr|]; cbn [filter snd run_call length].
    + destruct (sponsor_writes_once s env op entryPoint w) as (l & -> & Hl).
      rewrite length_app. lia.
    + destruct (requestGas_writes_once s env addr w) as (l & -> & Hl).
      rewrite length_app. lia.
    + rewrite gasRemain_run. cbn [snd]. rewrite saves_log by reflexivity. lia.
    + cbn. lia.
Qed.

(** X17: the validity window is packed as two 32-byte big-endian words, 64
    bytes in all, the first holding validUntil and the second validAfter
    (each modulo 2^256, so unchanged for a time that is not negative). *)
Theorem timeRange_words (validUntil validAfter : Z) :
  exists data,
    timeRangeABI_Pack validUntil validAfter = inr data /\
    length data = 64%nat /\
    Z.of_N (be_value (firstn 32 data)) = validUntil mod 2 ^ 256 /\
    Z.of_N (be_value (skipn 32 data)) = validAfter mod 2 ^ 256 /\
    (0 <= validUntil < 2 ^ 256 ->
     Z.of_N (be_value (firstn 32 data)) = validUntil) /\
    (0 <= validAfter < 2 ^ 256 ->
     Z.of_N (be_value (skipn 32 data)) = validAfter).
Proof.
  eexists. split; [reflexivity|].
  assert (Hfirst : firstn 32 (U256Bytes validUntil ++ U256Bytes validAfter)
                   = U256Bytes validUntil).
  { rewrite <- (U256Bytes_length validUntil) at 1. rewrite firstn_app.
    rewrite Nat.sub_diag, firstn_all. cbn [firstn]. apply app_nil_r. }
  assert (Hskip : skipn 32 (U256Bytes validUntil ++ U256Bytes validAfter)
                  = U256Bytes validAfter).
  { rewrite <- (U256Bytes_length validUntil) at 1. rewrite skipn_app.
    rewrite Nat.sub_diag, skipn_all. reflexivity. }
  rewrite Hfirst, Hskip, !U256Bytes_value.
  split; [now rewrite length_app, !U256Bytes_length|].
  split; [reflexivity|]. split; [reflexivity|].
  split; intros Hrange; now apply Z.mod_small.
Qed.

(* ================================================================= *)
(** ** Further properties of the dispatcher *)

(** A well-formed request reaches the method lookup, the argument loop and
    the call. *)
Lemma Process_dispatch (Res : Type) (Title : string -> string)
  (convert : Kind -> float64 -> Z) (MethodByName : string -> option (Method Res))
  (env : Env) (req : Request) (w : World) (data : list (string * json))
  (id : float64) (method : string) (params : list json) :
  well_formed env req data id method params ->
  Process Res Title convert MethodByName env req w
    = match MethodByName (Title method) with
      | None =>
          (Returned (ErrorResponse (-32601) "Method not found"
                       (JString "Method not found") (Some id)),
           log (EvFindByKey (req_key req)) w)
      | Some call =>
          match coerce_params Res convert true (In call) id 0 params with
          | None => (Panicked, log (EvFindByKey (req_key req)) w)
          | Some (inl r) => (Returned r, log (EvFindByKey (req_key req)) w)
          | Some (inr args) =>
              match Call call args
                      (log (EvInvoke (Title method) args)
                         (log (EvFindByKey (req_key req)) w)) with
              | (Returned result, w1) => respond Res result id w1
              | (Failed e, w1) => (Failed e, w1)
              | (Panicked, w1) => (Panicked, w1)
              end
          end
      end.
Proof.
  intros (Hpost & Hbody & Hkey & (apiKey & Hfind & Hen) & Hid & Hver & Hmeth & Hparams).
  unfold Process. rewrite Hpost, Hbody.
  apply String.eqb_neq in Hkey. rewrite Hkey.
  cbv beta iota zeta delta [bind ApiKeys_FindByKey ret panic invoke].
  rewrite Hfind, Hen, Hid, Hver, Hmeth, Hparams.
  destruct (MethodByName (Title method)) as [call|]; [|reflexivity].
  destruct (coerce_params Res convert true (In call) id 0 params) as [[r|args]|];
    reflexivity.
Qed.

(** X18: the API-key gate: a request that is not a POST, has no body or no
    key in its path, or whose key cannot be looked up, is unknown or is
    disabled, is answered with code -32700 and a null id; no operation is
    invoked and the account table is not touched. *)
Theorem process_gate (Res : Type) (Title : string -> string)
  (convert : Kind -> float64 -> Z) (MethodByName : string -> option (Method Res))
  (env : Env) (req : Request) (w : World) :
  gate_closed env req ->
  exists message data,
    fst (Process Res Title convert MethodByName env req w)
      = Returned (ErrorResponse (-32700) message data None) /\
    accounts (snd (Process Res Title convert MethodByName env req w)) = accounts w /\
    invocations (trace (snd (Process Res Title convert MethodByName env req w)))
      = invocations (trace w).
Proof.
  intros Hclosed. unfold Process.
  destruct (String.eqb_spec (req_Method req) "POST") as [Hpost|Hpost]; cbn [negb].
  2: { do 2 eexists. repeat split. }
  destruct Hclosed as [Hc|Hclosed]; [contradiction|].
  destruct (req_Body req) eqn:Hbody;
    try (do 2 eexists; repeat split; fail);
    (destruct Hclosed as [Hc|Hclosed]; [discriminate Hc|]);
    (destruct (String.eqb_spec (req_key req) EmptyString) as [Hkey|Hkey];
     [do 2 eexists; repeat split|]);
    (destruct Hclosed as [Hc|Hclosed]; [contradiction|]);
    cbv beta iota zeta delta [bind ApiKeys_FindByKey ret];
    unfold invocations;
    (destruct Hclosed as [(e & ->)|[->|(apiKey & -> & ->)]]);
    cbn [negb fst snd accounts trace log];
    do 2 eexists; (split; [reflexivity|]); (split; [reflexivity|]);
    rewrite filter_app; cbn; apply app_nil_r.
Qed.

(** X19: a call of a method the service does not have is answered with code
    -32601 "Method not found" under the request's id, whatever its
    parameters; only the API key has been looked up. *)
Theorem process_method_not_found (Res : Type) (Title : string -> string)
  (convert : Kind -> float64 -> Z) (MethodByName : string -> option (Method Res))
  (env : Env) (req : Request) (w : World) (data : list (string * json))
  (id : float64) (method : string) (params : list json) :
  well_formed env req data id method params ->
  MethodByName (Title method) = None ->
  Process Res Title convert MethodByName env req w
    = (Returned (ErrorResponse (-32601) "Method not found"
                   (JString "Method not found") (Some id)),
       log (EvFindByKey (req_key req)) w).
Proof.
  intros Hwf Hnone.
  rewrite (Process_dispatch _ _ _ _ _ _ _ _ _ _ _ Hwf). now rewrite Hnone.
Qed.

Lemma coerce_params_overflow (Res : Type) (convert : Kind -> float64 -> Z)
  (params : list json) :
  forall (ins : list (Kind * string)) (id : float64) (i : nat),
    (i <= length ins)%nat ->
    (length ins < i + length params)%nat ->
    coerce_params Res convert true ins id i params = None \/
    exists j ty,
      coerce_params Res convert true ins id i params
        = Some (inl (invalid_params_response j ty id)).
Proof.
  induction params as [|arg rest IH]; intros ins id i Hi Hover.
  - cbn [length] in Hover. lia.
  - cbn [coerce_params].
    destruct (nth_error ins i) as [[k ty]|] eqn:Hnth; [|now left].
    assert (Hlt : (i < length ins)%nat) by (apply nth_error_Some; congruence).
    destruct (coerce Res convert true k i ty id arg) as [v|r] eqn:Hc.
    + cbn [length] in Hover.
      destruct (IH ins id (S i) ltac:(lia) ltac:(lia)) as [->|(j & tyj & ->)];
        [now left|right; now exists j, tyj].
    + apply coerce_reject_inv in Hc. destruct Hc as (-> & _).
      right. now exists i, ty.
Qed.

(** X20: a call with more parameters than the operation declares never
    reaches the operation: the loop panics at the first parameter past the
    declared ones, unless an earlier one was rejected with "Invalid params";
    only the API key has been looked up. *)
Theorem process_too_many_params (Res : Type) (Title : string -> string)
  (convert : Kind -> float64 -> Z) (MethodByName : string -> option (Method Res))
  (env : Env) (req : Request) (w : World) (data : list (string * json))
  (id : float64) (method : string) (params : list json) (call : Method Res) :
  well_formed env req data id method params ->
  MethodByName (Title method) = Some call ->
  (length (In call) < length params)%nat ->
  snd (Process Res Title convert MethodByName env req w)
    = log (EvFindByKey (req_key req)) w /\
  (fst (Process Res Title convert MethodByName env req w) = Panicked \/
   exists j ty,
     fst (Process Res Title convert MethodByName env req w)
       = Returned (invalid_params_response j ty id)).
Proof.
  intros Hwf Hcall Hmore.
  rewrite (Process_dispatch _ _ _ _ _ _ _ _ _ _ _ Hwf), Hcall.
  destruct (coerce_params_overflow Res convert params (In call) id 0
              ltac:(lia) ltac:(lia)) as [->|(j & ty & ->)].
  - split; [reflexivity|now left].
  - split; [reflexivity|right; now exists j, ty].
Qed.

(** X21: when the argument loop completes, the operation gets one argument
    per parameter sent, in the order sent, and no more parameters were sent
    than are declared; a string sent for a string parameter, an object for a
    mapping and an array for an ordered sequence arrive unchanged. *)
Theorem coerce_params_arguments (Res : Type) (convert : Kind -> float64 -> Z)
  (params : list json) :
  forall (ins : list (Kind * string)) (id : float64) (i : nat) (args : list Value),
    coerce_params Res convert true ins id i params = Some (inr args) ->
    length args = length params /\
    (params = [] \/ (i + length params <= length ins)%nat) /\
    (forall j arg,
       nth_error params j = Some arg ->
       exists k ty v,
         nth_error ins (i + j) = Some (k, ty) /\
         coerce Res convert true k (i + j) ty id arg = Arg v /\
         nth_error args j = Some v) /\
    (forall j k ty,
       nth_error ins (i + j) = Some (k, ty) ->
       (forall v, k = String_ -> nth_error params j = Some (JString v) ->
                  nth_error args j = Some (VString v)) /\
       (forall m, k = Map -> nth_error params j = Some (JObject m) ->
                  nth_error args j = Some (VMap m)) /\
       (forall l, k = Slice -> nth_error params j = Some (JArray l) ->
                  nth_error args j = Some (VSlice l))).
Proof.
  induction params as [|arg0 rest IH]; intros ins id i args H.
  - cbn in H. injection H as <-.
    split; [reflexivity|]. split; [now left|].
    split.
    + intros j arg Hj. destruct j; discriminate Hj.
    + intros j k ty _. repeat split; intros ? _ Hj; destruct j; discriminate Hj.
  - cbn [coerce_params] in H.
    destruct (nth_error ins i) as [[k0 ty0]|] eqn:Hnth; [|discriminate H].
    assert (Hlt : (i < length ins)%nat) by (apply nth_error_Some; congruence).
    destruct (coerce Res convert true k0 i ty0 id arg0) as [v0|r] eqn:Hc;
      [|discriminate H].
    destruct (coerce_params Res convert true ins id (S i) rest)
      as [[r|vs]|] eqn:Hrest; try discriminate H.
    injection H as <-.
    destruct (IH ins id (S i) vs Hrest) as (Hlen & Hfit & Hall & Hshape).
    split; [cbn [length]; now rewrite Hlen|].
    split.
    { right. cbn [length]. destruct Hfit as [->|Hfit]; cbn [length]; lia. }
    split.
    + intros [|j] arg Hj; cbn [nth_error] in Hj |- *.
      * injection Hj as <-. rewrite Nat.add_0_r. now exists k0, ty0, v0.
      * replace (i + S j)%nat with (S i + j)%nat by lia. now apply Hall.
    + intros [|j] k ty Hk; cbn [nth_error].
      * rewrite Nat.add_0_r, Hnth in Hk. injection Hk as <- <-.
        repeat split; intros x -> [= ->]; cbn in Hc; congruence.
      * replace (i + S j)%nat with (S i + j)%nat in Hk by lia.
        exact (Hshape j k ty Hk).
Qed.

(** X22: how the outcome of the operation is answered: a last return value
    that is a plain error becomes code -32601 with the error text as message
    and as data, a coded error is forwarded as it is, otherwise the first
    return value is the result; an operation that returns nothing makes the
    dispatcher panic. *)
Theorem process_answers (Res : Type) (Title : string -> string)
  (convert : Kind -> float64 -> Z) (MethodByName : string -> option (Method Res))
  (env : Env) (req : Request) (w w1 : World) (data : list (string * json))
  (id : float64) (method : string) (params : list json) (call : Method Res)
  (args : list Value) (result : list (RetVal Res)) :
  well_formed env req data id method params ->
  MethodByName (Title method) = Some call ->
  coerce_params Res convert true (In call) id 0 params = Some (inr args) ->
  Call call args
    (log (EvInvoke (Title method) args) (log (EvFindByKey (req_key req)) w))
    = (Returned result, w1) ->
  (result = [] ->
   Process Res Title convert MethodByName env req w = (Panicked, w1)) /\
  (forall msg,
     last result RetNil = RetError (PlainError msg) ->
     Process Res Title convert MethodByName env req w
       = (Returned (ErrorResponse (-32601) msg (JString msg) (Some id)), w1)) /\
  (forall code msg edata,
     last result RetNil = RetError (RPCError code msg edata) ->
     Process Res Title convert MethodByName env req w
       = (Returned (ErrorResponse code msg edata (Some id)), w1)) /\
  (forall first rest,
     result = first :: rest ->
     (forall e, last result RetNil <> RetError e) ->
     Process Res Title convert MethodByName env req w
       = (Returned (ResultResponse first id), w1)).
Proof.
  intros Hwf Hcall Hargs Hrun.
  rewrite (Process_dispatch _ _ _ _ _ _ _ _ _ _ _ Hwf), Hcall, Hargs, Hrun.
  unfold respond.
  split; [now intros ->|].
  split; [|split].
  - intros msg Hlast. rewrite Hlast.
    destruct result; [discriminate Hlast|reflexivity].
  - intros code msg edata Hlast. rewrite Hlast.
    destruct result; [discriminate Hlast|reflexivity].
  - intros first rest -> Hno.
    destruct (last (first :: rest) RetNil) as [|r|e] eqn:Hlast;
      [reflexivity|reflexivity|].
    now destruct (Hno e).
Qed.

Lemma version_mismatch (T : Type) (v : json) (a b : T) :
  v <> JString "2.0" ->
  match v with
  | JString "2.0" => a
  | _ => b
  end = b.
Proof.
  intros Hne. destruct v as [| | |s| |]; try reflexivity.
  repeat match goal with
         | |- context [match ?x with _ => _ end] => destruct x; try reflexivity
         end.
  now destruct Hne.
Qed.

Lemma json_eq_version (version : string) : version = "2.0" \/ version <> "2.0".
Proof. destruct (string_dec version "2.0"); [now left|now right]. Qed.

(** X23: the envelope is checked in a fixed order once the API key is
    accepted: an unreadable or unparsable body gives -32700; then a missing
    or non-numeric id gives -32600 with a null id; then a version other than
    "2.0", then a missing or non-string method give -32600 under the id;
    then parameters that are not an array give -32602.  In each case only
    the API key has been looked up. *)
Theorem process_envelope (Res : Type) (Title : string -> string)
  (convert : Kind -> float64 -> Z) (MethodByName : string -> option (Method Res))
  (env : Env) (req : Request) (w : World) (apiKey : ApiKeys) :
  req_Method req = "POST" ->
  req_key req <> EmptyString ->
  FindByKey env (req_key req) = inr (Some apiKey) ->
  key_Enable apiKey = true ->
  (req_Body req = BodyUnreadable \/ req_Body req = BodyNotJSON ->
   exists text,
     Process Res Title convert MethodByName env req w
       = (Returned (ErrorResponse (-32700) "Parse error" (JString text) None),
          log (EvFindByKey (req_key req)) w)) /\
  (forall data,
     req_Body req = BodyJSON data ->
     ((forall id, map_get data "id" <> JNumber id) ->
      Process Res Title convert MethodByName env req w
        = (Returned (ErrorResponse (-32600) "Invalid Request"
                       (JString "No or invalid 'id' in request") None),
           log (EvFindByKey (req_key req)) w)) /\
     (forall id,
        map_get data "id" = JNumber id ->
        (map_get data "jsonrpc" <> JString "2.0" ->
         Process Res Title convert MethodByName env req w
           = (Returned (ErrorResponse (-32600) "Invalid Request"
                          (JString "Version of jsonrpc is not 2.0") (Some id)),
              log (EvFindByKey (req_key req)) w)) /\
        (map_get data "jsonrpc" = JString "2.0" ->
         ((forall method, map_get data "method" <> JString method) ->
          Process Res Title convert MethodByName env req w
            = (Returned (ErrorResponse (-32600) "Invalid Request"
                           (JString "No or invalid 'method' in request") (Some id)),
               log (EvFindByKey (req_key req)) w)) /\
         (forall method,
            map_get data "method" = JString method ->
            (forall params, map_get data "params" <> JArray params) ->
            Process Res Title convert MethodByName env req w
              = (Returned (ErrorResponse (-32602) "Invalid params"
                             (JString "No or invalid 'params' in request")
                             (Some id)),
                 log (EvFindByKey (req_key req)) w))))).
Proof.
  intros Hpost Hkey Hfind Hen.
  apply String.eqb_neq in Hkey.
  unfold Process. rewrite Hpost, Hkey.
  cbv beta iota zeta delta [bind ApiKeys_FindByKey ret jsonrpcError].
  split.
  - intros [->| ->]; rewrite Hfind, Hen; eexists; reflexivity.
  - intros data ->. rewrite Hfind, Hen. cbn [negb].
    split.
    + intros Hid. destruct (map_get data "id") as [| |f| | |]; try reflexivity.
      now destruct (Hid f).
    + intros id ->. split.
      * intros Hver. now rewrite version_mismatch.
      * intros ->. split.
        { intros Hmeth.
          destruct (map_get data "method") as [| | |m| |]; try reflexivity.
          now destruct (Hmeth m). }
        { intros method -> Hparams.
          destruct (map_get data "params") as [| | | |ps|]; try reflexivity.
          now destruct (Hparams ps). }
Qed.

(** X24: the operations of the service behind the dispatcher: a well-formed
    [pm_sponsorUserOperation] call with an object and a string runs
    [Pm_sponsorUserOperation] on them once and answers with its result; a
    refusal such as "insufficient gas" comes back under code -32601 with the
    error text as message and data. *)
Theorem dispatch_sponsor (s : Signer) (conf : Config) (Title : string -> string)
  (convert : Kind -> float64 -> Z) (env : Env) (req : Request) (w : World)
  (data : list (string * json)) (id : float64) (method : string)
  (op : RawOp) (entryPoint : string) :
  well_formed env req data id method [JObject op; JString entryPoint] ->
  Title method = "Pm_sponsorUserOperation" ->
  Process SignerResult Title convert (Signer_MethodByName s conf env) env req w
    = (response_of ResPaymaster id
         (fst (Pm_sponsorUserOperation s env op entryPoint
                 (log (EvInvoke "Pm_sponsorUserOperation"
                         [VMap op; VString entryPoint])
                    (log (EvFindByKey (req_key req)) w)))),
       snd (Pm_sponsorUserOperation s env op entryPoint
              (log (EvInvoke "Pm_sponsorUserOperation"
                      [VMap op; VString entryPoint])
                 (log (EvFindByKey (req_key req)) w)))).
Proof.
  intros Hwf Htitle.
  rewrite (Process_dispatch _ _ _ _ _ _ _ _ _ _ _ Hwf), Htitle.
  cbn [Signer_MethodByName String.eqb Ascii.eqb Bool.eqb In Call coerce_params
       nth_error coerce].
  unfold to_results.
  destruct (Pm_sponsorUserOperation s env op entryPoint _) as [[r|[msg|c msg d]|] w1];
    reflexivity.
Qed.

(** X25: the two operations that take an address accept any wire value for
    it: a value that is not a string is taken as the empty address, so
    [pm_requestGas] then looks up, and may grant gas to, the account with
    the empty address; the answer is the one of the operation run on that
    address. *)
Theorem dispatch_address_operations (s : Signer) (conf : Config)
  (Title : string -> string) (convert : Kind -> float64 -> Z) (env : Env)
  (req : Request) (w : World) (data : list (string * json)) (id : float64)
  (method : string) (arg : json) :
  well_formed env req data id method [arg] ->
  (Title method = "Pm_requestGas" ->
   Process SignerResult Title convert (Signer_MethodByName s conf env) env req w
     = (response_of ResBool id
          (fst (Pm_requestGas s env
                  match arg with JString a => a | _ => EmptyString end
                  (log (EvInvoke "Pm_requestGas"
                          [VString match arg with JString a => a | _ => EmptyString end])
                     (log (EvFindByKey (req_key req)) w)))),
        snd (Pm_requestGas s env
               match arg with JString a => a | _ => EmptyString end
               (log (EvInvoke "Pm_requestGas"
                       [VString match arg with JString a => a | _ => EmptyString end])
                  (log (EvFindByKey (req_key req)) w))))) /\
  (Title method = "Pm_gasRemain" ->
   Process SignerResult Title convert (Signer_MethodByName s conf env) env req w
     = (response_of ResGasRemain id
          (fst (Pm_gasRemain env
                  match arg with JString a => a | _ => EmptyString end
                  (log (EvInvoke "Pm_gasRemain"
                          [VString match arg with JString a => a | _ => EmptyString end])
                     (log (EvFindByKey (req_key req)) w)))),
        snd (Pm_gasRemain env
               match arg with JString a => a | _ => EmptyString end
               (log (EvInvoke "Pm_gasRemain"
                       [VString match arg with JString a => a | _ => EmptyString end])
                  (log (EvFindByKey (req_key req)) w))))).
Proof.
  intros Hwf. split; intros Htitle;
    rewrite (Process_dispatch _ _ _ _ _ _ _ _ _ _ _ Hwf), Htitle;
    cbn [Signer_MethodByName String.eqb Ascii.eqb Bool.eqb In Call coerce_params
         nth_error coerce];
    unfold to_results.
  - destruct (Pm_requestGas s env _ _) as [[r|[msg|c msg d]|] w1]; reflexivity.
  - destruct (Pm_gasRemain env _ _) as [[r|[msg|c msg d]|] w1]; reflexivity.
Qed.

(** X26: the dispatcher writes nothing itself and invokes one operation at
    most: after any request the world is the one before, or the one with the
    API-key lookup recorded, or the one the invoked operation left, in which
    case it was invoked once, after the lookup, under the name found. *)
Theorem process_frame (Res : Type) (Title : string -> string)
  (convert : Kind -> float64 -> Z) (MethodByName : string -> option (Method Res))
  (env : Env) (req : Request) (w w' : World) (o : Outcome (Response Res)) :
  Process Res Title convert MethodByName env req w = (o, w') ->
  w' = w \/
  w' = log (EvFindByKey (req_key req)) w \/
  exists name call args,
    MethodByName name = Some call /\
    w' = snd (Call call args
                (log (EvInvoke name args) (log (EvFindByKey (req_key req)) w))).
Proof.
  intros H. unfold Process in H.
  destruct (negb (String.eqb (req_Method req) "POST"));
    [injection H as <- <-; now left|].
  destruct (req_Body req) as [| | |data] eqn:Hbody;
    try (injection H as <- <-; now left);
    (destruct (String.eqb (req_key req) EmptyString);
     [injection H as <- <-; now left|]);
    cbv beta iota zeta delta [bind ApiKeys_FindByKey ret panic jsonrpcError] in H;
    (destruct (FindByKey env (req_key req)) as [e|[apiKey|]];
     [injection H as <- <-; now right; left
     |destruct (key_Enable apiKey); cbn [negb] in H
     |injection H as <- <-; now right; left]);
    try (injection H as <- <-; now right; left).
  destruct (map_get data "id") as [| |id| | |];
    try (injection H as <- <-; now right; left).
  destruct (map_get data "jsonrpc") as [| | |version| |];
    try (injection H as <- <-; now right; left).
  destruct (json_eq_version version) as [->|Hver].
  2: { rewrite (version_mismatch _ (JString version)) in H
         by (intros [= ->]; now apply Hver).
       injection H as <- <-. now right; left. }
  destruct (map_get data "method") as [| | |method| |];
    try (injection H as <- <-; now right; left).
  destruct (map_get data "params") as [| | | |params|];
    try (injection H as <- <-; now right; left).
  destruct (MethodByName (Title method)) as [call|] eqn:Hcall;
    [|injection H as <- <-; now right; left].
  destruct (coerce_params Res convert true (In call) id 0 params) as [[r|args]|];
    try (injection H as <- <-; now right; left).
  right. right. exists (Title method), call, args. split; [exact Hcall|].
  unfold invoke in H.
  destruct (Call call args _) as [[result| |] w1]; cbn [snd].
  - unfold respond in H.
    destruct (last result RetNil) as [|r|[msg|c msg d]]; destruct result;
      cbv beta iota delta [ret panic] in H; now injection H as <- <-.
  - now injection H as _ <-.
  - now injection H as _ <-.
Qed.

(** A parameter the argument loop rejects is always answered with "Invalid
    params". *)
Lemma coerce_params_reject_code (Res : Type) (convert : Kind -> float64 -> Z)
  (params : list json) :
  forall (ins : list (Kind * string)) (id : float64) (i : nat) (r : Response Res),
    coerce_params Res convert true ins id i params = Some (inl r) ->
    exists j ty, r = invalid_params_response j ty id.
Proof.
  induction params as [|arg rest IH]; intros ins id i r H.
  - discriminate H.
  - cbn [coerce_params] in H.
    destruct (nth_error ins i) as [[k ty]|]; [|discriminate H].
    destruct (coerce Res convert true k i ty id arg) as [v|r0] eqn:Hc.
    + destruct (coerce_params Res convert true ins id (S i) rest)
        as [[r1|vs]|] eqn:Hrest; try discriminate H.
      injection H as <-. exact (IH _ _ _ _ Hrest).
    + injection H as <-. apply coerce_reject_inv in Hc. destruct Hc as (-> & _).
      now exists i, ty.
Qed.

(** X27: the dispatcher answers errors of its own only under the codes
    -32700, -32600, -32601 and -32602: an error response with any other
    code, -32603 "Internal error" included, carries the code, message and
    data of a coded error that the invoked operation returned.  The
    "Invalid method defination" answer of the loop cannot be produced. *)
Theorem process_error_codes (Res : Type) (Title : string -> string)
  (convert : Kind -> float64 -> Z) (MethodByName : string -> option (Method Res))
  (env : Env) (req : Request) (w w' : World) (code : Z) (message : string)
  (data : json) (id : option float64) :
  Process Res Title convert MethodByName env req w
    = (Returned (ErrorResponse code message data id), w') ->
  code = -32700 \/ code = -32600 \/ code = -32601 \/ code = -32602 \/
  exists name call args result,
    MethodByName name = Some call /\
    Call call args (log (EvInvoke name args) (log (EvFindByKey (req_key req)) w))
      = (Returned result, w') /\
    last result RetNil = RetError (RPCError code message data).
Proof.
  intros H. unfold Process in H.
  destruct (negb (String.eqb (req_Method req) "POST"));
    [injection H as <- _ _ _ _; now left|].
  destruct (req_Body req) as [| | |body] eqn:Hbody;
    try (injection H as <- _ _ _ _; now left);
    (destruct (String.eqb (req_key req) EmptyString);
     [injection H as <- _ _ _ _; now left|]);
    cbv beta iota zeta delta [bind ApiKeys_FindByKey ret panic jsonrpcError] in H;
    (destruct (FindByKey env (req_key req)) as [e|[apiKey|]];
     [injection H as <- _ _ _ _; now left
     |destruct (key_Enable apiKey); cbn [negb] in H
     |injection H as <- _ _ _ _; now left]);
    try (injection H as <- _ _ _ _; now left).
  destruct (map_get body "id") as [| |rid| | |];
    try (injection H as <- _ _ _ _; now right; left).
  destruct (map_get body "jsonrpc") as [| | |version| |];
    try (injection H as <- _ _ _ _; now right; left).
  destruct (json_eq_version version) as [->|Hver].
  2: { rewrite (version_mismatch _ (JString version)) in H
         by (intros [= ->]; now apply Hver).
       injection H as <- _ _ _ _. now right; left. }
  destruct (map_get body "method") as [| | |method| |];
    try (injection H as <- _ _ _ _; now right; left).
  destruct (map_get body "params") as [| | | |params|];
    try (injection H as <- _ _ _ _; now right; right; right; left).
  destruct (MethodByName (Title method)) as [call|] eqn:Hcall;
    [|injection H as <- _ _ _ _; now right; right; left].
  destruct (coerce_params Res convert true (In call) rid 0 params)
    as [[r|args]|] eqn:Hargs; [| |discriminate H].
  - apply coerce_params_reject_code in Hargs. destruct Hargs as (j & ty & ->).
    injection H as <- _ _ _ _. now right; right; right; left.
  - unfold invoke in H.
    destruct (Call call args _) as [[result| |] w1] eqn:Hrun;
      [|discriminate H|discriminate H].
    unfold respond in H.
    destruct (last result RetNil) as [|r|[msg|c msg d]] eqn:Hlast;
      destruct result as [|first rest];
      cbv beta iota delta [ret panic] in H; try discriminate H.
    + injection H as <- _ _ _ _. now right; right; left.
    + injection H as <- <- <- _ <-. right; right; right; right.
      now exists (Title method), call, args, (first :: rest).
Qed.

(* ================================================================= *)
(** ** Worked instances of the further properties *)

Lemma sample_request_well_formed (method : string) (params : list json) :
  well_formed plain_env (sample_request method params) (sample_data method params)
    one method params.
Proof.
  repeat split; try discriminate.
  exists (mkApiKeys "k1" true). now split.
Qed.

Lemma sample_sponsored_again_eq :
  sample_sponsored_again = (Returned sample_result_again, snd sample_sponsored_again).
Proof. vm_compute. reflexivity. Qed.

Lemma sample_granted_eq : sample_granted = (Returned true, snd sample_granted).
Proof. vm_compute. reflexivity. Qed.

Lemma sample_vip_granted_eq :
  sample_vip_granted = (Returned true, snd sample_vip_granted).
Proof. vm_compute. reflexivity. Qed.

Lemma sample_nil_granted_eq :
  sample_nil_granted = (Returned true, snd sample_nil_granted).
Proof. vm_compute. reflexivity. Qed.

(** X1 where no account exists at all. *)
Lemma sponsor_early_refusals_witness :
  Pm_sponsorUserOperation sample_signer plain_env [] EmptyString empty_world
    = (Failed (errors_New "insufficient gas"),
       log (EvFindByAddress "0xaaa") empty_world).
Proof.
  exact (proj2 (sponsor_early_refusals sample_signer plain_env [] EmptyString
                  empty_world)
           (sample_op "0xAAA" 1000000000) eq_refl (or_intror eq_refl)).
Defined.

(** X2 at an account whose remaining gas reads "<nil>". *)
Lemma sponsor_unparsable_balance_panics_witness :
  Pm_sponsorUserOperation sample_signer plain_env [] EmptyString garbled_world
    = (Panicked, log (EvFindByAddress "0xaaa") garbled_world).
Proof.
  exact (sponsor_unparsable_balance_panics sample_signer plain_env [] EmptyString
           garbled_world (sample_op "0xAAA" 1000000000) garbled_account
           eq_refl eq_refl eq_refl (or_introl eq_refl)).
Defined.

(** X3 when the hash cannot be obtained: the call fails, the account is
    charged. *)
Lemma sponsor_failure_after_commit_witness :
  exists w',
    Pm_sponsorUserOperation sample_signer hash_down_env [] EmptyString sample_world
      = (Failed chain_error, w') /\
    Account_FindByAddress (accounts w') "0xaaa"
      = Some (mkAccount "0xaaa" true "185404000000000" "814596000000000"
                1600000000 (-1)).
Proof.
  apply (sponsor_failure_after_commit sample_signer hash_down_env [] EmptyString
           sample_world (sample_op "0xAAA" 1000000000) sample_account
           1000000000000000 0 chain_error);
    try reflexivity.
  - vm_compute. discriminate.
  - left. reflexivity.
Defined.

(** X4 at the sample sponsorship: an unknown address stays unknown. *)
Lemma sponsor_frame_witness :
  Account_FindByAddress (accounts (snd sample_sponsored)) "0xbbb" = None.
Proof.
  exact (proj1 (proj2 (sponsor_frame sample_signer plain_env [] EmptyString
                         sample_world (snd sample_sponsored) (Returned sample_result)
                         sample_sponsored_eq "0xbbb"))
           eq_refl).
Defined.

(** X5 at the sample sponsorship. *)
Lemma sponsor_then_gasRemain_witness :
  fst (Pm_gasRemain plain_env "0xAAA" (snd sample_sponsored))
    = Returned (mkGasRemain "814596000000000" 1600000000 "185404000000000").
Proof.
  destruct (sponsor_then_gasRemain sample_signer plain_env plain_env [] EmptyString
              sample_world (snd sample_sponsored) sample_result
              sample_sponsored_eq eq_refl)
    as (userOp & account & remain & used & Hop & Hfind & Hrem & Hused & Hquery).
  injection Hop as <-. injection Hfind as <-.
  injection Hrem as <-. injection Hused as <-.
  exact Hquery.
Defined.

(** X6 at two sample sponsorships in a row. *)
Lemma sponsor_twice_witness :
  exists account2,
    Account_FindByAddress (accounts (snd sample_sponsored_again)) "0xaaa"
      = Some account2 /\
    big.SetString (RemainGas account2) = Some 629192000000000 /\
    big.SetString (UsedGas account2) = Some 370808000000000.
Proof.
  exact (proj2 (sponsor_twice sample_signer plain_env plain_env [] [] EmptyString
                  EmptyString sample_world (snd sample_sponsored)
                  (snd sample_sponsored_again) sample_result sample_result_again
                  (sample_op "0xAAA" 1000000000) (sample_op "0xAAA" 1000000000)
                  sample_account 1000000000000000 0
                  sample_sponsored_eq sample_sponsored_again_eq
                  eq_refl eq_refl eq_refl eq_refl eq_refl eq_refl)).
Defined.

(** X7 at a disabled account: zeros. *)
Lemma gasRemain_read_only_witness :
  fst (Pm_gasRemain plain_env "0xAAA" disabled_world)
    = Returned (mkGasRemain "0" 0 "0").
Proof.
  apply (proj1 (proj2 (proj2 (proj2
           (gasRemain_read_only plain_env "0xAAA" disabled_world)))));
    [reflexivity|].
  right. eexists. split; reflexivity.
Defined.

(** X8 at a first grant to 0xbbb. *)
Lemma requestGas_grant_record_witness :
  exists granted,
    Account_FindByAddress (accounts (snd sample_granted)) "0xbbb" = Some granted /\
    Enable granted = true /\
    LastRequest granted = sample_now /\
    VipID granted = -1 /\
    UsedGas granted = "0".
Proof.
  destruct (requestGas_grant_record sample_signer plain_env "0xBBB" sample_world
              (snd sample_granted) true sample_granted_eq)
    as (granted & k & _ & Hfind & _ & Hen & Htime & Hvip & Hnew & _).
  exists granted. split; [exact Hfind|]. split; [exact Hen|].
  split; [exact Htime|]. split; [exact Hvip|]. exact (Hnew eq_refl).
Defined.

(** X9: a second request for 0xbbb at the same time. *)
Lemma requestGas_twice_refused_witness :
  exists w2,
    Pm_requestGas sample_signer plain_env "0xBBB" (snd sample_granted)
      = (Failed (errors_New "frequent requests"), w2) /\
    accounts w2 = accounts (snd sample_granted) /\
    saves (trace w2) = saves (trace (snd sample_granted)).
Proof.
  destruct (requestGas_twice_refused sample_signer plain_env plain_env "0xBBB"
              sample_world (snd sample_granted) true sample_granted_eq
              eq_refl eq_refl)
    as (granted & Hfind & Hrefused).
  vm_compute in Hfind. injection Hfind as <-.
  apply Hrefused; vm_compute; first [reflexivity | discriminate].
Defined.

(** X10: a second request by the holder of token 7 at the same time. *)
Lemma requestGas_vip_twice_refused_witness :
  exists w2,
    Pm_requestGas sample_signer vip_env "0xBBB" (snd sample_vip_granted)
      = (Failed (errors_New "frequent requests with NFT"), w2) /\
    accounts w2 = accounts (snd sample_vip_granted) /\
    saves (trace w2) = saves (trace (snd sample_vip_granted)).
Proof.
  destruct (requestGas_vip_twice_refused sample_signer vip_env vip_env "0xBBB"
              sample_world (snd sample_vip_granted) true sample_vip_granted_eq
              ltac:(discriminate) eq_refl eq_refl eq_refl)
    as (granted & Hfind & _ & Hrefused).
  vm_compute in Hfind. injection Hfind as <-.
  apply Hrefused; vm_compute; first [reflexivity | discriminate].
Defined.

(** X11 at the disabled sample account, long after its last grant. *)
Lemma requestGas_disabled_refused_witness :
  exists w',
    Pm_requestGas sample_signer plain_env "0xAAA" disabled_world
      = (Failed (errors_New "account disabled"), w') /\
    accounts w' = accounts disabled_world /\
    saves (trace w') = saves (trace disabled_world).
Proof.
  apply (requestGas_disabled_refused sample_signer plain_env "0xAAA" disabled_world
           (mkAccount "0xaaa" false "0" "1000000000000000" 1600000000 (-1)));
    try reflexivity.
  left. reflexivity.
Defined.

(** X12: the holder of token 7 asks from 0xccc, which has no account. *)
Lemma requestGas_vip_without_account_panics_witness :
  exists w',
    Pm_requestGas sample_signer vip_env "0xCCC" vip_world = (Panicked, w') /\
    accounts w' = accounts vip_world /\
    saves (trace w') = saves (trace vip_world).
Proof.
  apply (requestGas_vip_without_account_panics sample_signer vip_env "0xCCC"
           vip_world (mkAccount "0xaaa" true "0" "100" (sample_now - 10) 7));
    try reflexivity.
  discriminate.
Defined.

(** X13 with a store that cannot be queried. *)
Lemma requestGas_lookup_errors_witness :
  Pm_requestGas sample_signer lookup_failing_env "0xAAA" sample_world
    = (Failed store_error, log (EvFindByAddress "0xaaa") sample_world).
Proof.
  exact (proj1 (requestGas_lookup_errors sample_signer lookup_failing_env "0xAAA"
                  sample_world)
           store_error eq_refl).
Defined.

(** X14 with the standard ceiling written "1e15". *)
Lemma nil_tier_grant_then_sponsor_panics_witness :
  (exists granted,
     Account_FindByAddress (accounts (snd sample_nil_granted)) "0xaaa"
       = Some granted /\
     RemainGas granted = "<nil>") /\
  fst (Pm_sponsorUserOperation malformed_signer plain_env [] EmptyString
         (snd sample_nil_granted)) = Panicked.
Proof.
  exact (nil_tier_grant_then_sponsor_panics malformed_signer plain_env plain_env
           "0xAAA" sample_world (snd sample_nil_granted) true [] EmptyString
           (sample_op "0xAAA" 1000000000)
           sample_nil_granted_eq eq_refl eq_refl eq_refl eq_refl).
Defined.

(** X15: the disabled account after a grant request, a sponsorship and two
    queries. *)
Lemma accounts_persist_witness :
  exists a',
    Account_FindByAddress
      (accounts (run_calls sample_signer sample_conf sample_calls disabled_world))
      "0xaaa" = Some a' /\
    Address a' = "0xaaa" /\
    Enable a' = false.
Proof.
  exact (accounts_persist sample_signer sample_conf sample_calls disabled_world
           "0xaaa"
           (mkAccount "0xaaa" false "0" "1000000000000000" 1600000000 (-1))
           eq_refl).
Defined.

(** X18 at a request sent with GET. *)
Lemma process_gate_witness :
  exists message data,
    fst (sample_dispatch get_request sample_world)
      = Returned (ErrorResponse (-32700) message data None) /\
    accounts (snd (sample_dispatch get_request sample_world))
      = accounts sample_world /\
    invocations (trace (snd (sample_dispatch get_request sample_world)))
      = invocations (trace sample_world).
Proof.
  apply (process_gate SignerResult sample_Title sample_convert
           (Signer_MethodByName sample_signer sample_conf plain_env) plain_env
           get_request sample_world).
  left. discriminate.
Defined.

(** X19 at a method the service does not have. *)
Lemma process_method_not_found_witness :
  sample_dispatch (sample_request "pm_unknown" []) sample_world
    = (Returned (ErrorResponse (-32601) "Method not found"
                   (JString "Method not found") (Some one)),
       log (EvFindByKey "k1") sample_world).
Proof.
  exact (process_method_not_found SignerResult sample_Title sample_convert
           (Signer_MethodByName sample_signer sample_conf plain_env) plain_env
           (sample_request "pm_unknown" []) sample_world
           (sample_data "pm_unknown" []) one "pm_unknown" []
           (sample_request_well_formed "pm_unknown" []) eq_refl).
Defined.

(** X20 at [pm_config], which declares no parameter, called with one. *)
Lemma process_too_many_params_witness :
  snd (sample_dispatch (sample_request "pm_config" [JNumber one]) sample_world)
    = log (EvFindByKey "k1") sample_world /\
  (fst (sample_dispatch (sample_request "pm_config" [JNumber one]) sample_world)
     = Panicked \/
   exists j ty,
     fst (sample_dispatch (sample_request "pm_config" [JNumber one]) sample_world)
       = Returned (invalid_params_response j ty one)).
Proof.
  apply (process_too_many_params SignerResult sample_Title sample_convert
           (Signer_MethodByName sample_signer sample_conf plain_env) plain_env
           (sample_request "pm_config" [JNumber one]) sample_world
           (sample_data "pm_config" [JNumber one]) one "pm_config" [JNumber one]
           (sample_method "Pm_config")
           (sample_request_well_formed "pm_config" [JNumber one]) eq_refl).
  cbn. lia.
Defined.

(** X21 at the two parameters of [pm_sponsorUserOperation]. *)
Lemma coerce_params_arguments_witness :
  nth_error [VMap [("sender", JString "0xAAA")]; VString "0x5FF1"] 1
    = Some (VString "0x5FF1").
Proof.
  apply (proj1 (proj2 (proj2 (proj2
           (coerce_params_arguments SignerResult sample_convert
              [JObject [("sender", JString "0xAAA")]; JString "0x5FF1"]
              (In (sample_method "Pm_sponsorUserOperation")) one 0
              [VMap [("sender", JString "0xAAA")]; VString "0x5FF1"] eq_refl)))
           1%nat String_ "string" eq_refl));
    reflexivity.
Defined.

(** X22 at a balance query that returns. *)
Lemma process_answers_witness :
  sample_dispatch (sample_request "pm_gasRemain" [JString "0xAAA"]) sample_world
    = (Returned (ResultResponse
                   (RetValue (ResGasRemain
                                (mkGasRemain "1000000000000000" 1600000000 "0")))
                   one),
       snd (sample_dispatch (sample_request "pm_gasRemain" [JString "0xAAA"])
              sample_world)).
Proof.
  apply (proj2 (proj2 (proj2
           (process_answers SignerResult sample_Title sample_convert
              (Signer_MethodByName sample_signer sample_conf plain_env) plain_env
              (sample_request "pm_gasRemain" [JString "0xAAA"]) sample_world
              (snd (sample_dispatch (sample_request "pm_gasRemain" [JString "0xAAA"])
                      sample_world))
              (sample_data "pm_gasRemain" [JString "0xAAA"]) one "pm_gasRemain"
              [JString "0xAAA"] (sample_method "Pm_gasRemain") [VString "0xAAA"]
              [RetValue (ResGasRemain (mkGasRemain "1000000000000000" 1600000000 "0"));
               RetNil]
              (sample_request_well_formed "pm_gasRemain" [JString "0xAAA"])
              eq_refl eq_refl ltac:(vm_compute; reflexivity))))
           _ [RetNil] eq_refl).
  intros e. discriminate.
Defined.

(** X23 at an envelope without an id. *)
Lemma process_envelope_witness :
  sample_dispatch idless_request sample_world
    = (Returned (ErrorResponse (-32600) "Invalid Request"
                   (JString "No or invalid 'id' in request") None),
       log (EvFindByKey "k1") sample_world).
Proof.
  apply (proj1 (proj2 (process_envelope SignerResult sample_Title sample_convert
                         (Signer_MethodByName sample_signer sample_conf plain_env)
                         plain_env idless_request sample_world
                         (mkApiKeys "k1" true)
                         eq_refl ltac:(discriminate) eq_refl eq_refl)
                  _ eq_refl)).
  intros id. discriminate.
Defined.

(** X24 at the sample sponsorship, sent through the dispatcher. *)
Lemma dispatch_sponsor_witness :
  fst (sample_dispatch
         (sample_request "pm_sponsorUserOperation" [JObject []; JString "0x5FF1"])
         sample_world)
    = Returned (ResultResponse (RetValue (ResPaymaster sample_result)) one).
Proof.
  unfold sample_dispatch.
  rewrite (dispatch_sponsor sample_signer sample_conf sample_Title sample_convert
             plain_env
             (sample_request "pm_sponsorUserOperation" [JObject []; JString "0x5FF1"])
             sample_world
             (sample_data "pm_sponsorUserOperation" [JObject []; JString "0x5FF1"])
             one "pm_sponsorUserOperation" [] "0x5FF1"
             (sample_request_well_formed _ _) eq_refl).
  vm_compute. reflexivity.
Defined.

(** X25 at [pm_requestGas] called with a number: the empty address is
    granted the first-time allowance. *)
Lemma dispatch_address_operations_witness :
  exists account,
    Account_FindByAddress
      (accounts (snd (sample_dispatch (sample_request "pm_requestGas" [JNumber one])
                        sample_world)))
      EmptyString = Some account /\
    RemainGas account = "1000".
Proof.
  unfold sample_dispatch.
  rewrite (proj1 (dispatch_address_operations sample_signer sample_conf sample_Title
                    sample_convert plain_env
                    (sample_request "pm_requestGas" [JNumber one]) sample_world
                    (sample_data "pm_requestGas" [JNumber one]) one
                    "pm_requestGas" (JNumber one)
                    (sample_request_well_formed _ _))
             eq_refl).
  vm_compute. eexists. split; reflexivity.
Defined.

(** X26 at a request stopped by the gate: the world is untouched. *)
Lemma process_frame_witness :
  snd (sample_dispatch get_request sample_world) = sample_world \/
  snd (sample_dispatch get_request sample_world)
    = log (EvFindByKey (req_key get_request)) sample_world \/
  exists name call args,
    Signer_MethodByName sample_signer sample_conf plain_env name = Some call /\
    snd (sample_dispatch get_request sample_world)
      = snd (Call call args
               (log (EvInvoke name args)
                  (log (EvFindByKey (req_key get_request)) sample_world))).
Proof.
  exact (process_frame SignerResult sample_Title sample_convert
           (Signer_MethodByName sample_signer sample_conf plain_env) plain_env
           get_request sample_world
           (snd (sample_dispatch get_request sample_world))
           (fst (sample_dispatch get_request sample_world))
           (surjective_pairing _)).
Defined.

(** X27 at a request stopped by the gate. *)
Lemma process_error_codes_witness :
  -32700 = -32700 \/ -32700 = -32600 \/ -32700 = -32601 \/ -32700 = -32602 \/
  exists name call args result,
    Signer_MethodByName sample_signer sample_conf plain_env name = Some call /\
    Call call args
      (log (EvInvoke name args) (log (EvFindByKey (req_key get_request)) sample_world))
      = (Returned result, sample_world) /\
    last result RetNil
      = RetError (RPCError (-32700) "Parse error" (JString "POST method excepted")).
Proof.
  exact (process_error_codes SignerResult sample_Title sample_convert
           (Signer_MethodByName sample_signer sample_conf plain_env) plain_env
           get_request sample_world sample_world (-32700) "Parse error"
           (JString "POST method excepted") None eq_refl).
Defined.
